(** * SecureIoT-VIF Community Edition: the serial log checks

    A shallow embedding of [tests/test_community_features.py]: the polling
    loop [read_serial_until_pattern], the test methods for the boot
    sequence, the sensor reading and the enterprise features, and the
    runner [run_community_tests], together with the parts of the Python
    runtime they call ([bytes.decode], [re.search], [in], [float],
    [unittest]).  Time is an exact number of seconds, where Python has a
    binary64 reading of the clock. *)

From Stdlib Require Import ZArith QArith List Bool Lia.
From Stdlib Require Import Strings.String Strings.Ascii Strings.Byte.
Import ListNotations.

Set Implicit Arguments.
Local Open Scope Z_scope.

(** ** Python values *)

(** A Python [str] is a sequence of Unicode code points. *)
Definition pystr := list Z.

(** A Python [bytes] object. *)
Definition pybytes := list byte.

Definition byte_val (b : byte) : Z := Z.of_N (Byte.to_N b).

(** The exceptions the modelled code can raise. *)
Inductive exn :=
| AssertionError (msg : pystr)
| ValueError
| TypeError
| UnicodeDecodeError.

(** ** [bytes.decode('utf-8', errors=...)]

    The decoder follows CPython's [utf8_decode]: one lead byte decides the
    length of the sequence, every continuation byte is checked, and overlong
    forms, surrogates and code points above U+10FFFF are rejected.  On an
    error the handler decides: [Strict] raises, [Ignore] skips the bytes of
    the malformed sequence and goes on, [Replace] emits U+FFFD for them. *)

Inductive error_handler := Strict | Ignore | Replace.

Definition is_continuation (ch : Z) : bool := (0x80 <=? ch) && (ch <? 0xC0).

Definition emit (ch : Z) (rest : option pystr) : option pystr :=
  option_map (cons ch) rest.

(** What the decoder does with a malformed sequence; [rest] is the decoding
    of the input after the malformed bytes. *)
Definition on_error (errors : error_handler) (rest : option pystr) : option pystr :=
  match errors with
  | Strict => None
  | Ignore => rest
  | Replace => emit 0xFFFD rest
  end.

Fixpoint utf8_decode (errors : error_handler) (s : pybytes) {struct s} : option pystr :=
  match s with
  | [] => Some []
  | b0 :: s1 =>
    let ch := byte_val b0 in
    if ch <? 0x80 then emit ch (utf8_decode errors s1)
    else if ch <? 0xC2 then
      (* continuation byte or overlong lead: invalid start byte *)
      on_error errors (utf8_decode errors s1)
    else if ch <? 0xE0 then
      match s1 with
      | [] => on_error errors (Some [])          (* unexpected end of data *)
      | b1 :: s2 =>
        let ch2 := byte_val b1 in
        if negb (is_continuation ch2) then on_error errors (utf8_decode errors s1)
        else emit (Z.shiftl ch 6 + ch2 - (Z.shiftl 0xC0 6 + 0x80))
                  (utf8_decode errors s2)
      end
    else if ch <? 0xF0 then
      match s1 with
      | [] => on_error errors (Some [])
      | b1 :: s2 =>
        let ch2 := byte_val b1 in
        if negb (is_continuation ch2) then on_error errors (utf8_decode errors s1)
        else if (ch =? 0xE0) && (ch2 <? 0xA0) then
          on_error errors (utf8_decode errors s1)       (* overlong *)
        else if (ch =? 0xED) && (0xA0 <=? ch2) then
          on_error errors (utf8_decode errors s1)       (* surrogate *)
        else
          match s2 with
          | [] => on_error errors (Some [])
          | b2 :: s3 =>
            let ch3 := byte_val b2 in
            if negb (is_continuation ch3) then on_error errors (utf8_decode errors s2)
            else emit (Z.shiftl ch 12 + Z.shiftl ch2 6 + ch3
                       - (Z.shiftl 0xE0 12 + Z.shiftl 0x80 6 + 0x80))
                      (utf8_decode errors s3)
          end
      end
    else if ch <? 0xF5 then
      match s1 with
      | [] => on_error errors (Some [])
      | b1 :: s2 =>
        let ch2 := byte_val b1 in
        if negb (is_continuation ch2) then on_error errors (utf8_decode errors s1)
        else if (ch =? 0xF0) && (ch2 <? 0x90) then
          on_error errors (utf8_decode errors s1)       (* overlong *)
        else if (ch =? 0xF4) && (0x90 <=? ch2) then
          on_error errors (utf8_decode errors s1)       (* above U+10FFFF *)
        else
          match s2 with
          | [] => on_error errors (Some [])
          | b2 :: s3 =>
            let ch3 := byte_val b2 in
            if negb (is_continuation ch3) then on_error errors (utf8_decode errors s2)
            else
              match s3 with
              | [] => on_error errors (Some [])
              | b3 :: s4 =>
                let ch4 := byte_val b3 in
                if negb (is_continuation ch4) then
                  on_error errors (utf8_decode errors s3)
                else emit (Z.shiftl ch 18 + Z.shiftl ch2 12 + Z.shiftl ch3 6 + ch4
                           - (Z.shiftl 0xF0 18 + Z.shiftl 0x80 12
                              + Z.shiftl 0x80 6 + 0x80))
                          (utf8_decode errors s4)
              end
          end
      end
    else on_error errors (utf8_decode errors s1)        (* invalid start byte *)
  end.

(** A byte that can start no sequence: a continuation byte, the lead of an
    overlong form, or a lead beyond U+10FFFF. *)
Definition invalid_start (b : byte) : bool :=
  let ch := byte_val b in
  ((0x80 <=? ch) && (ch <? 0xC2)) || (0xF5 <=? ch).

(** String literals of the source, written as they are in the Python file
    (this file is UTF-8, as the Python file is) and read as code points. *)
Definition py (s : string) : pystr :=
  match utf8_decode Ignore (list_byte_of_string s) with
  | Some t => t
  | None => []
  end.


(** ** Unicode tables of the interpreter

    Two pieces of the Python runtime depend on the Unicode character
    database, which is no part of the repository: the decimal digits that
    [\d] matches and [float] reads, and [str.lower].  They are taken as an
    interface; [ascii_tables] is its restriction to ASCII, on which every
    Python build agrees. *)
Class UnicodeTables := {
  (** the digit value of a character of category Nd *)
  unicode_decimal : Z -> option Z;
  (** [str.lower] *)
  str_lower : pystr -> pystr
}.

Definition ascii_decimal (c : Z) : option Z :=
  if (48 <=? c) && (c <=? 57) then Some (c - 48) else None.

Definition ascii_lower_char (c : Z) : Z :=
  if (65 <=? c) && (c <=? 90) then c + 32 else c.

Definition ascii_tables : UnicodeTables :=
  {| unicode_decimal := ascii_decimal; str_lower := map ascii_lower_char |}.

(** ** The [in] operator on strings *)

Fixpoint startswith (prefix s : pystr) : bool :=
  match prefix, s with
  | [], _ => true
  | _ :: _, [] => false
  | p :: prefix', c :: s' => (p =? c) && startswith prefix' s'
  end.

(** [contains member container] is Python's [member in container]. *)
Fixpoint contains (member container : pystr) : bool :=
  startswith member container ||
  match container with
  | [] => false
  | _ :: rest => contains member rest
  end.


(** ** Regular expressions ([re.search] with [re.MULTILINE])

    Patterns are kept in compiled form.  The matcher is a backtracking one,
    as Python's is: alternatives are tried left to right, repetition is
    greedy, and [re.search] takes the leftmost start at which the pattern
    matches.  An iteration of a repetition that consumes nothing is not
    taken (none of the patterns of the source has one). *)

Inductive class_item :=
| CChar (c : Z)              (* a literal character of a set *)
| CRange (lo hi : Z)         (* a-z *)
| CDigit.                    (* \d *)

Inductive regex :=
| REmpty                                    (* the empty pattern *)
| RChar (c : Z)                             (* a literal character *)
| RAny                                      (* . *)
| RSet (negated : bool) (items : list class_item)   (* [...] and \d *)
| RSeq (r1 r2 : regex)
| RAlt (r1 r2 : regex)                      (* r1|r2 *)
| RStar (r : regex)                         (* r* *)
| RGroup (index : nat) (r : regex)          (* (r), numbered from 1 *)
| RBol                                      (* ^ under MULTILINE *)
| REol.                                     (* $ under MULTILINE *)

Definition RPlus (r : regex) : regex := RSeq r (RStar r).     (* r+ *)
Definition ROpt (r : regex) : regex := RAlt r REmpty.         (* r? *)

(** A pattern without metacharacters. *)
Definition re_literal (s : pystr) : regex :=
  fold_right (fun c r => RSeq (RChar c) r) REmpty s.

Definition newline : Z := 10.

(** The spans of the groups matched so far, latest first. *)
Definition captures := list (nat * (nat * nat)).

Section Regex.
Context {tables : UnicodeTables}.

Definition item_matches (c : Z) (it : class_item) : bool :=
  match it with
  | CChar x => c =? x
  | CRange lo hi => (lo <=? c) && (c <=? hi)
  | CDigit => match unicode_decimal c with Some _ => true | None => false end
  end.

Definition set_matches (negated : bool) (items : list class_item) (c : Z) : bool :=
  xorb negated (existsb (item_matches c) items).

(** The matcher in continuation-passing style.  [prev] is the character
    before the current position, [pos] the position, [s] the text from it
    on; the continuation [k] matches the rest of the pattern and returns the
    end of the whole match. *)
Definition cont := option Z -> nat -> pystr -> captures -> option (nat * captures).

Fixpoint re_match (r : regex) (prev : option Z) (pos : nat) (s : pystr)
         (caps : captures) (k : cont) {struct r} : option (nat * captures) :=
  match r with
  | REmpty => k prev pos s caps
  | RChar c =>
    match s with
    | x :: s' => if x =? c then k (Some x) (S pos) s' caps else None
    | [] => None
    end
  | RAny =>
    match s with
    | x :: s' => if x =? newline then None else k (Some x) (S pos) s' caps
    | [] => None
    end
  | RSet negated items =>
    match s with
    | x :: s' => if set_matches negated items x then k (Some x) (S pos) s' caps else None
    | [] => None
    end
  | RSeq r1 r2 =>
    re_match r1 prev pos s caps (fun prev' pos' s' caps' => re_match r2 prev' pos' s' caps' k)
  | RAlt r1 r2 =>
    match re_match r1 prev pos s caps k with
    | Some m => Some m
    | None => re_match r2 prev pos s caps k
    end
  | RStar r1 =>
    (fix loop (n : nat) (prev : option Z) (pos : nat) (s : pystr) (caps : captures)
       : option (nat * captures) :=
       match n with
       | O => k prev pos s caps
       | S n' =>
         match re_match r1 prev pos s caps
                        (fun prev' pos' s' caps' =>
                           if (pos <? pos')%nat then loop n' prev' pos' s' caps' else None) with
         | Some m => Some m
         | None => k prev pos s caps
         end
       end) (List.length s) prev pos s caps
  | RGroup index r1 =>
    re_match r1 prev pos s caps
             (fun prev' pos' s' caps' => k prev' pos' s' ((index, (pos, pos')) :: caps'))
  | RBol =>
    match prev with
    | None => k prev pos s caps
    | Some c => if c =? newline then k prev pos s caps else None
    end
  | REol =>
    match s with
    | [] => k prev pos s caps
    | x :: _ => if x =? newline then k prev pos s caps else None
    end
  end.

(** A match object: the span of the match and the spans of its groups. *)
Record match_object := { m_start : nat; m_end : nat; m_caps : captures }.

Fixpoint search_from (r : regex) (prev : option Z) (pos : nat) (s : pystr)
  : option match_object :=
  match re_match r prev pos s [] (fun _ e _ caps => Some (e, caps)) with
  | Some (e, caps) => Some {| m_start := pos; m_end := e; m_caps := caps |}
  | None =>
    match s with
    | [] => None
    | x :: s' => search_from r (Some x) (S pos) s'
    end
  end.

(** [re.search(pattern, text, re.MULTILINE)] *)
Definition re_search (pattern : regex) (text : pystr) : option match_object :=
  search_from pattern None 0 text.

Definition slice (text : pystr) (i j : nat) : pystr := firstn (j - i) (skipn i text).

(** [m.group(0)]: the text of the match. *)
Definition group0 (text : pystr) (m : match_object) : pystr :=
  slice text (m_start m) (m_end m).

Fixpoint lookup_group (g : nat) (caps : captures) : option (nat * nat) :=
  match caps with
  | [] => None
  | (g', span) :: rest => if Nat.eqb g g' then Some span else lookup_group g rest
  end.

(** [m.group(g)] for a group that took part in the match. *)
Definition group (text : pystr) (m : match_object) (g : nat) : option pystr :=
  match lookup_group g (m_caps m) with
  | Some (i, j) => Some (slice text i j)
  | None => None
  end.

End Regex.

(** The sensor pattern of the source: T=([\d.-]+)°C, H=([\d.-]+)%
    (the source searches it without [re.MULTILINE]; it has no anchor, so
    the flag changes nothing). *)
Definition number_field : regex := RPlus (RSet false [CDigit; CChar 46; CChar 45]).

Definition sensor_pattern : regex :=
  RSeq (re_literal (py "T="))
  (RSeq (RGroup 1 number_field)
  (RSeq (re_literal (py "°C, H="))
  (RSeq (RGroup 2 number_field)
        (re_literal (py "%"))))).




(** ** [float(text)]

    A Python float is a binary64 number.  [float] is modelled on the texts
    the capture groups of [sensor_pattern] can hold (a sign, decimal digits
    and dots): the text must be an optional sign, digits and at most one
    dot, with a digit somewhere; anything else raises [ValueError].  The
    value is the decimal number rounded to the nearest binary64, ties to
    even, the way [float] rounds. *)

Inductive pyfloat :=
| Finite (q : Q)
| Infinite (negative : bool).

Definition round_half_even (n d : Z) : Z :=
  let q := n / d in
  let r := n mod d in
  if 2 * r <? d then q
  else if d <? 2 * r then q + 1
  else if Z.even q then q else q + 1.

(** The binary64 nearest to [n/d], for [0 <= n] and [0 < d]. *)
Definition binary64_of_ratio (negative : bool) (n d : Z) : pyfloat :=
  if n =? 0 then Finite 0
  else
    let e0 := Z.log2 n - Z.log2 d in
    (* e = floor (log2 (n/d)) *)
    let e := if (if 0 <=? e0 then d * 2 ^ e0 <=? n else d <=? n * 2 ^ (- e0))
             then e0 else e0 - 1 in
    (* the exponent of the last bit of the 53-bit significand *)
    let u := Z.max (e - 52) (-1074) in
    let m := if 0 <=? u then round_half_even n (d * 2 ^ u)
             else round_half_even (n * 2 ^ (- u)) d in
    if (if 0 <=? u then 2 ^ 1024 <=? m * 2 ^ u else false) then Infinite negative
    else
      let sm := if negative then - m else m in
      Finite (if 0 <=? u then (sm * 2 ^ u) # 1 else sm # Z.to_pos (2 ^ (- u))).

Section Float.
Context {tables : UnicodeTables}.

(** Reads a run of decimal digits: its value, its length, and the rest. *)
Fixpoint read_digits (s : pystr) (value : Z) (count : Z) : Z * Z * pystr :=
  match s with
  | [] => (value, count, [])
  | c :: s' =>
    match unicode_decimal c with
    | Some d => read_digits s' (10 * value + d) (count + 1)
    | None => (value, count, s)
    end
  end.

Definition py_float (text : pystr) : exn + pyfloat :=
  let '(negative, digits) :=
    match text with
    | 45 :: rest => (true, rest)
    | 43 :: rest => (false, rest)
    | _ => (false, text)
    end in
  let '(ip, n1, after_int) := read_digits digits 0 0 in
  match after_int with
  | [] => if n1 =? 0 then inl ValueError else inr (binary64_of_ratio negative ip 1)
  | 46 :: fraction =>
    let '(fp, n2, after_fraction) := read_digits fraction 0 0 in
    match after_fraction with
    | [] =>
      if n1 + n2 =? 0 then inl ValueError
      else inr (binary64_of_ratio negative (ip * 10 ^ n2 + fp) (10 ^ n2))
    | _ :: _ => inl ValueError
    end
  | _ :: _ => inl ValueError
  end.

End Float.

(** [x >= bound] and [x <= bound] on floats, for a finite [bound]. *)
Definition float_ge (x : pyfloat) (bound : Q) : bool :=
  match x with
  | Finite q => Qle_bool bound q
  | Infinite negative => negb negative
  end.

Definition float_le (x : pyfloat) (bound : Q) : bool :=
  match x with
  | Finite q => Qle_bool q bound
  | Infinite negative => negative
  end.

(** ** Assertions of [unittest.TestCase]

    A test body either runs to its end or stops at the first exception.
    The computation also keeps the list of the assertion calls it evaluated
    (what was asserted, and whether it held), so that statements about
    which assertions ran can be made. *)

Record assertion_call := { asserted : pystr; held : bool }.

Inductive result (A : Type) :=
| Ok (a : A)
| Raise (e : exn).
Arguments Ok {A} a.
Arguments Raise {A} e.

Definition M (A : Type) : Type := list assertion_call * result A.

Definition ret {A} (a : A) : M A := ([], Ok a).
Definition raise {A} (e : exn) : M A := ([], Raise e).

Definition bind {A B} (m : M A) (f : A -> M B) : M B :=
  match m with
  | (calls, Raise e) => (calls, Raise e)
  | (calls, Ok a) => let '(calls', r) := f a in (calls ++ calls', r)
  end.

Notation "x <- m ;; f" := (bind m (fun x => f))
  (at level 61, m at next level, right associativity).
Notation "m ;; f" := (bind m (fun _ => f))
  (at level 61, right associativity).

Definition executed {A} (m : M A) : list assertion_call := fst m.
Definition outcome_of {A} (m : M A) : result A := snd m.

(** An assertion that fails raises [AssertionError]; the message is
    represented by [what]: the member looked for, or the message given. *)
Definition assert_that (what : pystr) (condition : bool) : M unit :=
  ([{| asserted := what; held := condition |}],
   if condition then Ok tt else Raise (AssertionError what)).

Definition assertIn (member container : pystr) : M unit :=
  assert_that member (contains member container).

Definition assertTrue (condition : bool) (msg : pystr) : M unit :=
  assert_that msg condition.

Definition assertGreaterEqual (x : pyfloat) (bound : Q) (msg : pystr) : M unit :=
  assert_that msg (float_ge x bound).

Definition assertLessEqual (x : pyfloat) (bound : Q) (msg : pystr) : M unit :=
  assert_that msg (float_le x bound).

(** A call that may raise, such as [float(text)]. *)
Definition lift {A} (r : exn + A) : M A :=
  match r with
  | inl e => raise e
  | inr a => ret a
  end.

(** ** The serial port and the clock

    What the loop observes of the outside: the successive readings of
    [time.time()] (in seconds; reading 0 is [start_time], reading [i+1] is
    taken by the [i]-th evaluation of the loop condition), and the bytes
    waiting in the input buffer of the port when the [i]-th iteration polls
    it.  [ser.read(ser.in_waiting)] asks for exactly the bytes that wait, so
    it returns them without blocking; the bytes that arrive between the
    test of [in_waiting] and the read belong to the same poll.  The reset
    through DTR and the sleeps of the test methods happen before the loop
    and are no part of the model, nor is a port that disappears while it is
    read. *)
Record World := {
  clock : nat -> Q;
  waiting : nat -> pybytes
}.

Definition Qlt_bool (x y : Q) : bool := negb (Qle_bool y x).

(** Lines 43 and 44 of the loop, which the spec calls decodeAppend:
    [buffer += data.decode('utf-8', errors='ignore')].  [None] is an
    exception of the decoder. *)
Definition decode_append (buffer : pystr) (data : pybytes) : option pystr :=
  option_map (app buffer) (utf8_decode Ignore data).

(** Which [return] statement ended the loop. *)
Inductive exit_path :=
| AtMatch          (* line 47: the pattern was found *)
| AtDeadline.      (* line 49: the loop condition failed *)

Inductive completion :=
| Returned (path : exit_path) (buffer : pystr)
| Raised (e : exn).

Section Reader.
Context {tables : UnicodeTables}.
Variable w : World.

(** [ser.in_waiting] at the [i]-th iteration. *)
Definition in_waiting (i : nat) : nat := List.length (waiting w i).

(** The [while] loop of [read_serial_until_pattern], from its [i]-th
    iteration on.  [None]: the loop is still running after [fuel]
    iterations. *)
Fixpoint poll (fuel : nat) (pattern : regex) (timeout start_time : Q)
         (i : nat) (buffer : pystr) : option completion :=
  match fuel with
  | O => None
  | S fuel' =>
    if Qlt_bool (clock w (S i) - start_time) timeout then
      if (0 <? in_waiting i)%nat then
        match decode_append buffer (waiting w i) with
        | None => Some (Raised UnicodeDecodeError)
        | Some buffer =>
          match re_search pattern buffer with
          | Some _ => Some (Returned AtMatch buffer)
          | None => poll fuel' pattern timeout start_time (S i) buffer
          end
        end
      else poll fuel' pattern timeout start_time (S i) buffer
    else Some (Returned AtDeadline buffer)
  end.

Definition run_reader (fuel : nat) (pattern : regex) (timeout : Q) : option completion :=
  let start_time := clock w 0 in
  let buffer := [] in
  poll fuel pattern timeout start_time 0 buffer.

(** What the caller of [read_serial_until_pattern] gets. *)
Definition returned_value (c : completion) : result pystr :=
  match c with
  | Returned _ buffer => Ok buffer
  | Raised e => Raise e
  end.

Definition read_serial_until_pattern (fuel : nat) (pattern : regex) (timeout : Q)
  : option (result pystr) :=
  option_map returned_value (run_reader fuel pattern timeout).

(** The text decoded from the bytes polled at iteration [i]. *)
Definition decoded (i : nat) : pystr :=
  match utf8_decode Ignore (waiting w i) with
  | Some data => data
  | None => []
  end.

(** All the text decoded in the first [k] iterations. *)
Fixpoint accumulated (k : nat) : pystr :=
  match k with
  | O => []
  | S k' => accumulated k' ++ decoded k'
  end.

(** The loop condition holds at its [i]-th evaluation. *)
Definition before_deadline (timeout : Q) (i : nat) : Prop :=
  (clock w (S i) - clock w 0 < timeout)%Q.

(** Iteration [i] has bytes to read and the pattern matches the buffer
    once they are appended. *)
Definition found_at (pattern : regex) (i : nat) : bool :=
  (0 <? in_waiting i)%nat &&
  match re_search pattern (accumulated (S i)) with
  | Some _ => true
  | None => false
  end.

(** Iterations [i] to [k-1] all run before the deadline and find nothing. *)
Definition quiet (pattern : regex) (timeout : Q) (i k : nat) : Prop :=
  forall j, (i <= j < k)%nat -> before_deadline timeout j /\ found_at pattern j = false.

(** How a finished loop finished, and at which iteration [k]: at the first
    evaluation of the condition past the deadline, or at the first
    iteration that found the pattern. *)
Inductive finished_at (pattern : regex) (timeout : Q) (i : nat)
  : completion -> nat -> Prop :=
| finished_deadline k :
    (i <= k)%nat -> quiet pattern timeout i k -> ~ before_deadline timeout k ->
    finished_at pattern timeout i (Returned AtDeadline (accumulated k)) k
| finished_match k :
    (i <= k)%nat -> quiet pattern timeout i k -> before_deadline timeout k ->
    found_at pattern k = true ->
    finished_at pattern timeout i (Returned AtMatch (accumulated (S k))) k.

(** The number of characters decoded in the first [k] iterations. *)
Fixpoint received_length (k : nat) : nat :=
  match k with
  | O => 0
  | S k' => received_length k' + List.length (decoded k')
  end.

End Reader.

(** A world for examples: the clock advances one second per reading, and
    the port delivers the given chunks, one per poll, then nothing. *)
Definition scripted (chunks : list pybytes) : World :=
  {| clock := fun i => inject_Z (Z.of_nat i);
     waiting := fun i => nth i chunks [] |}.

(** The bytes of a literal of this file. *)
Definition utf8 (s : string) : pybytes := list_byte_of_string s.

(** ** The assertion blocks of the test methods *)

Section Tests.
Context {tables : UnicodeTables}.

(** [test_community_boot_sequence], after the boot log was read. *)
Definition boot_sequence_checks (boot_log : pystr) : M unit :=
  assertIn (py "Démarrage SecureIoT-VIF Community Edition") boot_log ;;
  assertIn (py "Crypto de base initialisé") boot_log ;;
  assertIn (py "Vérification intégrité initiale réussie") boot_log ;;
  assertIn (py "Gestionnaire de capteurs Community initialisé") boot_log ;;
  assertIn (py "Community Edition Opérationnel") boot_log.

Definition boot_sequence_members : list pystr :=
  [ py "Démarrage SecureIoT-VIF Community Edition";
    py "Crypto de base initialisé";
    py "Vérification intégrité initiale réussie";
    py "Gestionnaire de capteurs Community initialisé";
    py "Community Edition Opérationnel" ].

Definition dht22_temperature : pystr := py "Température dans la plage DHT22".
Definition dht22_humidity : pystr := py "Humidité dans la plage DHT22".

(** [test_community_sensor_reading], after the sensor log was read. *)
Definition sensor_reading_checks (sensor_log : pystr) : M unit :=
  assertIn (py "Données capteur:") sensor_log ;;
  match re_search sensor_pattern sensor_log with
  | Some reading_match =>
    match group sensor_log reading_match 1, group sensor_log reading_match 2 with
    | Some temp, Some humidity =>
      temp <- lift (py_float temp) ;;
      humidity <- lift (py_float humidity) ;;
      assertGreaterEqual temp (-40) dht22_temperature ;;
      assertLessEqual temp 80 dht22_temperature ;;
      assertGreaterEqual humidity 0 dht22_humidity ;;
      assertLessEqual humidity 100 dht22_humidity
    | _, _ => raise TypeError
    end
  | None => ret tt
  end.

Definition enterprise_features : list pystr :=
  [ py "temps réel";
    py "Hardware Security Module";
    py "TRNG";
    py "attestation continue";
    py "ML adaptatif";
    py "eFuse";
    py "Secure Boot v2";
    py "Flash Encryption" ].

(** The condition of the [assertTrue] in the loop over the features. *)
Definition disclaimer_present (log_buffer : pystr) : bool :=
  contains (py "non disponible") log_buffer
  || contains (py "Enterprise") log_buffer
  || contains (py "pas de") (str_lower log_buffer).

Definition feature_message (feature : pystr) : pystr :=
  py "Fonctionnalité Enterprise '" ++ feature ++ py "' présente en Community".

(** The [for feature in ...] loop of
    [test_community_no_enterprise_features]. *)
Fixpoint check_features (features : list pystr) (log_buffer : pystr) : M unit :=
  match features with
  | [] => ret tt
  | feature :: rest =>
    (if contains feature log_buffer
     then assertTrue (disclaimer_present log_buffer) (feature_message feature)
     else ret tt) ;;
    check_features rest log_buffer
  end.

Definition no_enterprise_features_checks (log_buffer : pystr) : M unit :=
  check_features enterprise_features log_buffer.

(** A test method: read the log until the pattern or the deadline, then
    run the assertions on what was read. *)
Definition run_test_method (w : World) (fuel : nat) (pattern : regex) (timeout : Q)
           (checks : pystr -> M unit) : option (M unit) :=
  match read_serial_until_pattern w fuel pattern timeout with
  | None => None
  | Some (Raise e) => Some (raise e)
  | Some (Ok log) => Some (checks log)
  end.

Definition test_community_boot_sequence (w : World) (fuel : nat) : option (M unit) :=
  run_test_method w fuel (re_literal (py "Community Edition Opérationnel")) 30
                  boot_sequence_checks.

Definition test_community_sensor_reading (w : World) (fuel : nat) : option (M unit) :=
  run_test_method w fuel (re_literal (py "Données capteur:")) 30
                  sensor_reading_checks.

Definition test_community_no_enterprise_features (w : World) (fuel : nat)
  : option (M unit) :=
  run_test_method w fuel (re_literal (py "Community Edition")) 30
                  no_enterprise_features_checks.

End Tests.

(** The first member of a list that the log lacks. *)
Definition first_missing (members : list pystr) (log : pystr) : option pystr :=
  find (fun member => negb (contains member log)) members.

(** The assertion calls of a sequence of [assertIn] that stops at the first
    failure. *)
Fixpoint calls_until_failure (members : list pystr) (log : pystr) : list assertion_call :=
  match members with
  | [] => []
  | member :: rest =>
    if contains member log
    then {| asserted := member; held := true |} :: calls_until_failure rest log
    else [ {| asserted := member; held := false |} ]
  end.

(** The members whose [assertIn] fails on the log. *)
Definition failing_members (members : list pystr) (log : pystr) : list pystr :=
  filter (fun member => negb (contains member log)) members.

(** ** The negative assertion as the spec words it

    MustNotContain(pattern, allowedQualifiers) of the spec, with its
    context window counted in lines ([window = 0] is "same line"): every
    line on which the pattern occurs has a qualifier on a line at most
    [window] lines away.  It is compared with the check of the source. *)

Fixpoint split_lines_from (s : pystr) (current : pystr) : list pystr :=
  match s with
  | [] => [rev current]
  | c :: s' =>
    if c =? newline then rev current :: split_lines_from s' []
    else split_lines_from s' (c :: current)
  end.

Definition split_lines (s : pystr) : list pystr := split_lines_from s [].

Definition spec_MustNotContain (window : nat) (pattern : pystr) (qualifiers : list pystr)
           (snapshot : pystr) : bool :=
  let lines := split_lines snapshot in
  let indexes := seq 0 (List.length lines) in
  forallb
    (fun i =>
       implb (contains pattern (nth i lines []))
             (existsb
                (fun j =>
                   (i - window <=? j)%nat && (j <=? i + window)%nat
                   && existsb (fun q => contains q (nth j lines [])) qualifiers)
                indexes))
    indexes.

Definition spec_qualifiers : list pystr :=
  [ py "non disponible"; py "Enterprise"; py "pas de" ].

(** ** The runner: [unittest] and [run_community_tests] *)

Inductive outcome :=
| Success
| Failure (e : exn)        (* the test raised AssertionError *)
| Error (e : exn)          (* the test raised another exception *)
| Skipped.                 (* setUp called skipTest *)

(** One test of the suite as the runner sees it: whether [setUp] could open
    the serial port, and what the test method did. *)
Record scenario := {
  port_opened : bool;
  method_result : result unit
}.

Definition classify (r : result unit) : outcome :=
  match r with
  | Ok _ => Success
  | Raise (AssertionError msg) => Failure (AssertionError msg)
  | Raise e => Error e
  end.

(** [setUp] skips the test when the port cannot be opened. *)
Definition run_scenario (s : scenario) : outcome :=
  if port_opened s then classify (method_result s) else Skipped.

(** [unittest.TestResult] *)
Record TestResult := {
  testsRun : nat;
  failures : list (nat * exn);
  errors : list (nat * exn);
  skipped : list nat
}.

Definition empty_result : TestResult :=
  {| testsRun := 0; failures := []; errors := []; skipped := [] |}.

Definition record_outcome (r : TestResult) (index : nat) (o : outcome) : TestResult :=
  match o with
  | Success =>
    {| testsRun := S (testsRun r); failures := failures r; errors := errors r;
       skipped := skipped r |}
  | Failure e =>
    {| testsRun := S (testsRun r); failures := failures r ++ [(index, e)];
       errors := errors r; skipped := skipped r |}
  | Error e =>
    {| testsRun := S (testsRun r); failures := failures r;
       errors := errors r ++ [(index, e)]; skipped := skipped r |}
  | Skipped =>
    {| testsRun := S (testsRun r); failures := failures r; errors := errors r;
       skipped := skipped r ++ [index] |}
  end.

(** [runner.run(test_suite)]: the tests run in order, each recorded. *)
Fixpoint run_from (index : nat) (suite : list scenario) (r : TestResult) : TestResult :=
  match suite with
  | [] => r
  | s :: rest => run_from (S index) rest (record_outcome r index (run_scenario s))
  end.

Definition runner_run (suite : list scenario) : TestResult := run_from 0 suite empty_result.

(** No test of the class is an expected failure, so success is the
    absence of failures and errors. *)
Definition wasSuccessful (r : TestResult) : bool :=
  (Nat.eqb (List.length (failures r)) 0) && (Nat.eqb (List.length (errors r)) 0).

(** The last line that [TextTestRunner] prints: OK or FAILED, and the
    counts it lists with it. *)
Record summary_line := {
  status_ok : bool;
  listed_failures : nat;
  listed_errors : nat;
  listed_skipped : nat
}.

Definition runner_summary (r : TestResult) : summary_line :=
  {| status_ok := wasSuccessful r;
     listed_failures := List.length (failures r);
     listed_errors := List.length (errors r);
     listed_skipped := List.length (skipped r) |}.

(** [run_community_tests] returns [result.wasSuccessful()]; what it prints
    around the run is not modelled. *)
Definition run_community_tests (suite : list scenario) : bool :=
  let result := runner_run suite in
  wasSuccessful result.

(** [exit(0 if success else 1)] *)
Definition exit_status (suite : list scenario) : Z :=
  let success := run_community_tests suite in
  if success then 0 else 1.

Definition is_failure (o : outcome) : bool :=
  match o with Failure _ => true | _ => false end.
Definition is_error (o : outcome) : bool :=
  match o with Error _ => true | _ => false end.
Definition is_skipped (o : outcome) : bool :=
  match o with Skipped => true | _ => false end.

(** How many scenarios of the suite end with an outcome of a kind. *)
Definition count_outcomes (kind : outcome -> bool) (suite : list scenario) : nat :=
  List.length (filter (fun s => kind (run_scenario s)) suite).

(** ** The other test methods of the class *)

Definition assertNotIn (member container : pystr) : M unit :=
  assert_that member (negb (contains member container)).

(** [assertGreater(first, second, msg)] on integers. *)
Definition assertGreater (first second : Z) (msg : pystr) : M unit :=
  assert_that msg (second <? first).

Section MoreTests.
Context {tables : UnicodeTables}.

(** [test_community_crypto_basic], after the boot log was read. *)
Definition crypto_basic_checks (boot_log : pystr) : M unit :=
  assertIn (py "Initialisation crypto de base Community") boot_log ;;
  assertIn (py "Version éducative - Crypto software seulement") boot_log ;;
  assertIn (py "Crypto de base initialisé") boot_log ;;
  assertIn (py "Community Edition") boot_log ;;
  assertNotIn (py "Hardware Security Module") boot_log ;;
  assertNotIn (py "TRNG") boot_log.

Definition test_community_crypto_basic (w : World) (fuel : nat) : option (M unit) :=
  run_test_method w fuel (re_literal (py "Crypto de base initialisé")) 20
                  crypto_basic_checks.

(** [test_community_integrity_basic], after the integrity log was read. *)
Definition integrity_basic_checks (integrity_log : pystr) : M unit :=
  assertIn (py "Vérification d'intégrité basique") integrity_log ;;
  assertNotIn (py "temps réel") integrity_log ;;
  assertNotIn (py "attestation") integrity_log ;;
  if contains (py "Échantillonnage") integrity_log
  then assertIn (py "chunks sur") integrity_log
  else ret tt.

Definition test_community_integrity_basic (w : World) (fuel : nat) : option (M unit) :=
  run_test_method w fuel (re_literal (py "Vérification d'intégrité")) 90
                  integrity_basic_checks.

(** [test_community_anomaly_detection_basic], after the log was read. *)
Definition anomaly_detection_checks (log_buffer : pystr) : M unit :=
  (if contains (py "seuils fixes") log_buffer
   then assertIn (py "seuils fixes") log_buffer
   else ret tt) ;;
  if contains (py "Anomalie détectée") log_buffer
  then
    assertIn (py "Anomalie détectée") log_buffer ;;
    assertNotIn (py "ML") log_buffer ;;
    assertNotIn (py "adaptatif") log_buffer
  else ret tt.

(** The pattern Anomalie|seuils fixes *)
Definition anomaly_pattern : regex :=
  RAlt (re_literal (py "Anomalie")) (re_literal (py "seuils fixes")).

Definition test_community_anomaly_detection_basic (w : World) (fuel : nat)
  : option (M unit) :=
  run_test_method w fuel anomaly_pattern 60 anomaly_detection_checks.

Definition educational_messages : list pystr :=
  [ py "Community Edition";
    py "éducative";
    py "apprentissage";
    py "Version éducative";
    py "Idéal pour";
    py "🎓" ].

(** The loop that counts the messages found in the log. *)
Definition count_found (messages : list pystr) (boot_log : pystr) : Z :=
  fold_left (fun found_messages message =>
               if contains message boot_log then found_messages + 1 else found_messages)
            messages 0.

(** [test_community_educational_messages], after the boot log was read. *)
Definition educational_messages_checks (boot_log : pystr) : M unit :=
  let found_messages := count_found educational_messages boot_log in
  assertGreater found_messages 2 (py "Messages éducatifs insuffisants").

Definition test_community_educational_messages (w : World) (fuel : nat)
  : option (M unit) :=
  run_test_method w fuel (re_literal (py "Community Edition")) 20
                  educational_messages_checks.

End MoreTests.

(** Two reads one after the other: lines 43 and 44 run twice. *)
Definition decode_append_twice (buffer : pystr) (first second : pybytes) : option pystr :=
  match decode_append buffer first with
  | Some buffer' => decode_append buffer' second
  | None => None
  end.

(** * The flash tool ([tools/flash_tool_community.py])

    The tool runs shell commands, reads and writes a few files, and prints.
    What it prints is not modelled (the durations it prints are formatted
    floats); the values that decide what is printed are.  The outside is a
    [Host]: what a shell command returns and does to the files, and the
    serial ports that pyserial lists.  File operations are taken to
    succeed, and the user does not interrupt. *)

Fixpoint str_eqb (a b : pystr) : bool :=
  match a, b with
  | [], [] => true
  | x :: a', y :: b' => (x =? y) && str_eqb a' b'
  | _, _ => false
  end.

(** The files of the working directory: the content of each path that
    exists. *)
Definition filesystem := pystr -> option pystr.

(** [os.path.exists(path)] *)
Definition path_exists (fs : filesystem) (path : pystr) : bool :=
  match fs path with
  | Some _ => true
  | None => false
  end.

(** [open(path, "w")] and the writes until it is closed. *)
Definition write_file (fs : filesystem) (path content : pystr) : filesystem :=
  fun p => if str_eqb p path then Some content else fs p.


(** [subprocess.CompletedProcess] *)
Record completed_process := {
  returncode : Z;
  stdout : pystr;
  stderr : pystr
}.

(** An entry of [serial.tools.list_ports.comports()]. *)
Record port_info := {
  device : pystr;
  description : pystr
}.

Record Host := {
  (** the [n]-th command of the run, on the files as they are: what it
      returns and the files it leaves *)
  shell : nat -> pystr -> filesystem -> completed_process * filesystem;
  (** the ports listed; [None]: pyserial cannot be imported *)
  comports : option (list port_info)
}.

(** The state of a run: the files, and the commands run so far, each with
    its return code. *)
Record tool_state := {
  files : filesystem;
  history : list (pystr * Z)
}.

(** A function of the tool returns, or leaves the program by [sys.exit]. *)
Inductive ending (A : Type) :=
| Done (a : A)
| SystemExit (code : Z).
Arguments Done {A} a.
Arguments SystemExit {A} code.

Definition Tool (A : Type) : Type := tool_state -> tool_state * ending A.

Definition done {A} (a : A) : Tool A := fun st => (st, Done a).
Definition sys_exit {A} (code : Z) : Tool A := fun st => (st, SystemExit code).

Definition and_then {A B} (t : Tool A) (f : A -> Tool B) : Tool B :=
  fun st =>
    match t st with
    | (st', Done a) => f a st'
    | (st', SystemExit code) => (st', SystemExit code)
    end.

Notation "t >>= f" := (and_then t f) (at level 58, left associativity).
Notation "t >> u" := (and_then t (fun _ => u)) (at level 58, left associativity).

(** The exit status of the process. *)
Definition exit_code {A} (e : ending A) : Z :=
  match e with
  | Done _ => 0
  | SystemExit code => code
  end.

Section FlashTool.
Context {tables : UnicodeTables}.
Variable host : Host.

(** [run_command(cmd, check)] *)
Definition run_command (cmd : pystr) (check : bool) : Tool completed_process :=
  fun st =>
    let '(result, files') := shell host (List.length (history st)) cmd (files st) in
    let st' := {| files := files';
                  history := history st ++ [(cmd, returncode result)] |} in
    if check && negb (returncode result =? 0) then (st', SystemExit 1)
    else (st', Done result).

(** The second half of [check_environment], lines 42 to 53: the line
    printed about the edition, read from the header; nothing is printed
    when the header does not exist. *)
Definition environment_notice (fs : filesystem) : option pystr :=
  match fs (py "main/app_config.h") with
  | Some content =>
    if contains (py "1.0.0-COMMUNITY") content
    then Some (py "✅ SecureIoT-VIF Community Edition détectée")
    else if contains (py "2.0.0-ESP32-CRYPTO") content
    then Some (py "⚠️ SecureIoT-VIF Enterprise détectée - Utilisez l'outil Enterprise")
    else Some (py "❓ Version SecureIoT-VIF non identifiée")
  | None => None
  end.

(** [check_environment()]: the command, the exit when it returned a
    non-zero code, and otherwise the notice about the edition, on the
    files as the command left them.  The function returns nothing; the
    result here is the line it printed about the edition. *)
Definition check_environment : Tool (option pystr) :=
  run_command (py "idf.py --version") false >>= fun result =>
  if negb (returncode result =? 0) then sys_exit 1
  else fun st => (st, Done (environment_notice (files st))).

(** The [config] dictionary of [configure_project], in the order of the
    source. *)
Definition community_config : list (pystr * pystr) :=
  [ (py "CONFIG_SECURE_IOT_COMMUNITY_EDITION", py "y");
    (py "CONFIG_SECURE_IOT_BASIC_CRYPTO_ONLY", py "y");
    (py "CONFIG_SECURE_IOT_SECURITY_LEVEL", py "2");
    (py "CONFIG_SECURE_IOT_DHT22_GPIO", py "4");
    (py "CONFIG_SECURE_IOT_DHT22_POWER_GPIO", py "5");
    (py "CONFIG_SECURE_IOT_INTEGRITY_CHECK_INTERVAL", py "300");
    (py "CONFIG_SECURE_IOT_SENSOR_READ_INTERVAL", py "5");
    (py "CONFIG_MBEDTLS_HARDWARE_AES", py "n");
    (py "CONFIG_MBEDTLS_HARDWARE_SHA", py "n");
    (py "CONFIG_MBEDTLS_ECDSA_C", py "y");
    (py "CONFIG_MBEDTLS_ECP_C", py "y");
    (py "CONFIG_ESP32_DEFAULT_CPU_FREQ_160", py "y");
    (py "CONFIG_ESP32_ENABLE_COREDUMP", py "n");
    (py "CONFIG_ESP32_PANIC_HANDLER_REBOOT", py "y");
    (py "CONFIG_SECURE_BOOT", py "n");
    (py "CONFIG_SECURE_FLASH_ENC_ENABLED", py "n") ].

(** What the loop [for key, value in config.items(): f.write(...)] writes. *)
Fixpoint render_config (config : list (pystr * pystr)) : pystr :=
  match config with
  | [] => []
  | (key, value) :: rest => key ++ py "=" ++ value ++ [newline] ++ render_config rest
  end.

(** [configure_project(args)], given [args.auto_config]. *)
Definition configure_project (auto_config : bool) : Tool unit :=
  if auto_config
  then fun st =>
         ({| files := write_file (files st) (py "sdkconfig") (render_config community_config);
             history := history st |},
          Done tt)
  else run_command (py "idf.py menuconfig") true >> done tt.

(** [build_project()] *)
Definition build_project : Tool unit :=
  run_command (py "idf.py build") true >> done tt.

(** [flash_project(port)] *)
Definition flash_project (port : pystr) : Tool unit :=
  run_command (py "idf.py -p " ++ port ++ py " flash") true >> done tt.

(** [monitor_project(port)] *)
Definition monitor_project (port : pystr) : Tool unit :=
  run_command (py "idf.py -p " ++ port ++ py " monitor") true >> done tt.

Definition esp32_keywords : list pystr :=
  [ py "cp210"; py "ch340"; py "ftdi"; py "silicon labs"; py "esp32" ].

(** The condition under which [detect_port] keeps a port. *)
Definition is_esp32 (p : port_info) : bool :=
  let desc_lower := str_lower (description p) in
  existsb (fun keyword => contains keyword desc_lower) esp32_keywords.

Definition default_port : pystr := py "/dev/ttyUSB0".

(** [detect_port()] *)
Definition detect_port : pystr :=
  match comports host with
  | Some ports =>
    let esp32_ports := map device (filter is_esp32 ports) in
    match esp32_ports with
    | selected_port :: _ => selected_port
    | [] =>
      match ports with
      | first :: _ => device first
      | [] => default_port
      end
    end
  | None => default_port
  end.

Definition community_configs : list pystr :=
  [ py "CONFIG_SECURE_IOT_COMMUNITY_EDITION=y";
    py "CONFIG_SECURE_IOT_BASIC_CRYPTO_ONLY=y";
    py "CONFIG_SECURE_BOOT=n";
    py "CONFIG_SECURE_FLASH_ENC_ENABLED=n" ].

Definition community_files : list pystr :=
  [ py "components/secure_element/crypto_operations_basic.c";
    py "components/secure_element/include/crypto_operations_basic.h";
    py "main/app_config.h" ].

(** The two lists that [run_tests] builds and reports; [None] for the
    configuration: there is no sdkconfig. *)
Record tests_report := {
  missing_configs : option (list pystr);
  missing_files : list pystr
}.

Definition find_missing_configs (config : pystr) : list pystr :=
  filter (fun config_item => negb (contains config_item config)) community_configs.

Definition find_missing_files (fs : filesystem) : list pystr :=
  filter (fun file_path => negb (path_exists fs file_path)) community_files.

(** [run_tests()] *)
Definition run_tests : Tool tests_report :=
  run_command (py "idf.py build") true >> fun st =>
  (st, Done {| missing_configs := option_map find_missing_configs (files st (py "sdkconfig"));
               missing_files := find_missing_files (files st) |}).




(** The variable [version] of [show_version_info]. *)
Definition version_info (fs : filesystem) : pystr :=
  match fs (py "main/app_config.h") with
  | Some content =>
    if contains (py "1.0.0-COMMUNITY") content
    then py "v1.0.0 - Community Edition 🎓"
    else if contains (py "2.0.0-ESP32-CRYPTO") content
    then py "v2.0.0 - Enterprise Edition (Mauvais outil)"
    else py "Non détectée"
  | None => py "Non détectée"
  end.

(** Whether [show_version_info] goes on to print the features. *)
Definition shows_features (fs : filesystem) : bool :=
  contains (py "Community") (version_info fs).

End FlashTool.

(** ** What happened to a scenario, read off its two inputs

    These do not go through [run_scenario]: they say what the port and the
    test method did, so that what the runner reports can be compared with
    it. *)

(** The port was opened and the method raised [AssertionError]. *)
Definition method_failed (s : scenario) : bool :=
  port_opened s &&
  match method_result s with
  | Raise (AssertionError _) => true
  | _ => false
  end.

(** The port was opened and the method raised another exception. *)
Definition method_errored (s : scenario) : bool :=
  port_opened s &&
  match method_result s with
  | Ok _ => false
  | Raise (AssertionError _) => false
  | Raise _ => true
  end.

Definition three_reads : World := scripted [utf8 "aaaa"; utf8 "aaaa"; utf8 "aaaa"].

(** ** [str.encode('utf-8')]

    The encoding of a text, after the definition of UTF-8 (RFC 3629): the
    reference against which the decoder is checked.  A text that can be
    encoded holds scalar values only: code points up to U+10FFFF that are
    no surrogates. *)





(** * Properties *)

Example py_donnees : py "Données" = [68; 111; 110; 110; 233; 101; 115].
Proof. reflexivity. Qed.

Example decode_euro : utf8_decode Strict [xe2; x82; xac] = Some [0x20AC].
Proof. reflexivity. Qed.

Example decode_split_char : utf8_decode Ignore [x4f; x70; xc3] = Some [79; 112].
Proof. reflexivity. Qed.

Example contains_mid : contains (py "TRNG") (py "pas de TRNG ici") = true.
Proof. reflexivity. Qed.

Example contains_empty : contains [] [] = true.
Proof. reflexivity. Qed.

Example search_sensor :
  let text := py "Données capteur: T=23.5°C, H=45.0%" in
  option_map (fun m => (group0 text m, group text m 1, group text m 2))
             (re_search (tables := ascii_tables) sensor_pattern text)
  = Some (py "T=23.5°C, H=45.0%", Some (py "23.5"), Some (py "45.0")).
Proof. vm_compute. reflexivity. Qed.

Example search_alt :
  let text := py "x
seuils fixes" in
  option_map (group0 text)
    (re_search (tables := ascii_tables)
       (RAlt (re_literal (py "Anomalie")) (re_literal (py "seuils fixes"))) text)
  = Some (py "seuils fixes").
Proof. vm_compute. reflexivity. Qed.

Example search_bol :
  option_map m_start
    (re_search (tables := ascii_tables) (RSeq RBol (RChar 98)) [97; 98; 10; 98]) = Some 3%nat.
Proof. vm_compute. reflexivity. Qed.

Example float_23_5 :
  exists q, py_float (tables := ascii_tables) (py "23.5") = inr (Finite q) /\ (q == 47 # 2)%Q.
Proof. eexists. split; [ vm_compute; reflexivity | reflexivity ]. Qed.

Example float_tenth :
  exists q, py_float (tables := ascii_tables) (py "-0.1") = inr (Finite q)
            /\ (q == - 3602879701896397 # 36028797018963968)%Q.
Proof. eexists. split; [ vm_compute; reflexivity | reflexivity ]. Qed.

Example float_malformed : py_float (tables := ascii_tables) (py "1.2.3") = inl ValueError.
Proof. reflexivity. Qed.

(** ** Literal patterns

    For a pattern without metacharacters, [re.search] finds what [in]
    finds: the test methods wait for a literal and then assert on it. *)

Section Literals.
Context {tables : UnicodeTables}.

Lemma re_match_literal (p : pystr) :
  forall prev pos s caps (k : cont),
    if startswith p s
    then exists prev',
        re_match (re_literal p) prev pos s caps k
        = k prev' (pos + List.length p)%nat (skipn (List.length p) s) caps
    else re_match (re_literal p) prev pos s caps k = None.
Proof.
  induction p as [|c p IH]; intros prev pos s caps k.
  - cbn. exists prev. rewrite Nat.add_0_r. reflexivity.
  - destruct s as [|x s]; [ reflexivity | ].
    cbn [startswith re_literal fold_right re_match List.length skipn].
    rewrite (Z.eqb_sym c x).
    destruct (x =? c); cbn [andb]; [ | reflexivity ].
    specialize (IH (Some x) (S pos) s caps k). fold (re_literal p).
    destruct (startswith p s).
    + destruct IH as [prev' ->]. exists prev'.
      replace (pos + S (List.length p))%nat with (S pos + List.length p)%nat by lia.
      reflexivity.
    + exact IH.
Qed.

Lemma search_from_literal (p : pystr) :
  forall s prev pos,
    match search_from (re_literal p) prev pos s with
    | Some _ => contains p s = true
    | None => contains p s = false
    end.
Proof.
  induction s as [|x s IH]; intros prev pos.
  - cbn [search_from contains].
    pose proof (re_match_literal p prev pos [] [] (fun _ e _ caps => Some (e, caps))) as H.
    destruct (startswith p []).
    + destruct H as [prev' ->]. reflexivity.
    + rewrite H. reflexivity.
  - cbn [search_from contains].
    pose proof (re_match_literal p prev pos (x :: s) [] (fun _ e _ caps => Some (e, caps))) as H.
    destruct (startswith p (x :: s)).
    + destruct H as [prev' ->]. reflexivity.
    + rewrite H. cbn [orb]. apply IH.
Qed.

Lemma re_search_literal (p text : pystr) :
  (exists m, re_search (re_literal p) text = Some m) <-> contains p text = true.
Proof.
  unfold re_search. pose proof (search_from_literal p text None 0) as H.
  destruct (search_from (re_literal p) None 0 text) as [m|].
  - split; [ intros _; exact H | intros _; exists m; reflexivity ].
  - split; [ intros [m Hm]; discriminate | congruence ].
Qed.

End Literals.

(** ** The decoder *)

Lemma length_induction (A : Type) (P : list A -> Prop) :
  (forall s, (forall s', (List.length s' < List.length s)%nat -> P s') -> P s) ->
  forall s, P s.
Proof.
  intros step s.
  remember (List.length s) as n eqn:Hn.
  revert s Hn.
  induction n as [n IH] using lt_wf_ind.
  intros s ->. apply step. intros s' Hlt. exact (IH _ Hlt s' eq_refl).
Qed.

(** One unfolding of the decoder, without touching its recursive calls. *)
Ltac decode_step := cbn [app]; cbv beta iota zeta.

Ltac decode_cases :=
  repeat (decode_step;
          match goal with
          | |- context [if ?c then _ else _] => destruct c eqn:?
          | |- context [match ?l with [] => _ | _ :: _ => _ end] => is_var l; destruct l
          end);
  decode_step.

Lemma utf8_decode_ignore_total (s : pybytes) :
  exists text, utf8_decode Ignore s = Some text.
Proof.
  induction s as [s IH] using length_induction.
  destruct s as [|b0 s1]; [ exists []; reflexivity | ].
  assert (tail : forall s', (List.length s' <= List.length s1)%nat ->
                            exists text, utf8_decode Ignore s' = Some text).
  { intros s' Hle. apply IH. simpl. lia. }
  clear IH. cbn [utf8_decode].
  decode_cases; unfold on_error, emit;
    try (eexists; reflexivity);
    match goal with
    | |- exists text, option_map _ (utf8_decode Ignore ?x) = Some text =>
      destruct (tail x) as [t Ht]; [ simpl; lia | rewrite Ht; eexists; reflexivity ]
    | |- exists text, utf8_decode Ignore ?x = Some text =>
      apply tail; simpl; lia
    end.
Qed.

Lemma option_map_app_nil (x : option pystr) : option_map (app []) x = x.
Proof. destruct x; reflexivity. Qed.

Lemma emit_some (ch : Z) (x : option pystr) (t : pystr) :
  emit ch x = Some t -> exists t', x = Some t' /\ t = ch :: t'.
Proof.
  destruct x as [t'|]; simpl; [ | discriminate ].
  intros [= <-]. exists t'. split; reflexivity.
Qed.

(** A prefix that decodes strictly decodes the same way in front of any
    other bytes, under every error handler. *)
Lemma utf8_decode_strict_app (errors : error_handler) (s1 s2 : pybytes) :
  forall t1, utf8_decode Strict s1 = Some t1 ->
             utf8_decode errors (s1 ++ s2) = option_map (app t1) (utf8_decode errors s2).
Proof.
  induction s1 as [s1 IH] using length_induction.
  destruct s1 as [|b0 s1].
  - intros t1 [= <-]. simpl. symmetry. apply option_map_app_nil.
  - assert (tail : forall s', (List.length s' <= List.length s1)%nat ->
              forall t, utf8_decode Strict s' = Some t ->
                utf8_decode errors (s' ++ s2) = option_map (app t) (utf8_decode errors s2)).
    { intros s' Hle. apply IH. simpl. lia. }
    clear IH. intros t1. cbn [utf8_decode app].
    decode_cases; unfold on_error; try discriminate;
      intros H; apply emit_some in H; destruct H as (t' & Ht' & ->);
      (rewrite (fun pf => tail _ pf _ Ht') by (simpl; lia));
      destruct (utf8_decode errors s2); reflexivity.
Qed.

Lemma utf8_decode_strict_ignore (s : pybytes) (t : pystr) :
  utf8_decode Strict s = Some t -> utf8_decode Ignore s = Some t.
Proof.
  intros H. pose proof (utf8_decode_strict_app Ignore s [] H) as E.
  rewrite app_nil_r in E. rewrite E. simpl. rewrite app_nil_r. reflexivity.
Qed.

Ltac bools_to_props :=
  repeat match goal with
         | H : (_ && _) = true |- _ => apply andb_true_iff in H; destruct H
         | H : (_ || _) = true |- _ => apply orb_true_iff in H; destruct H
         | H : (_ && _) = false |- _ => apply andb_false_iff in H; destruct H
         | H : (_ || _) = false |- _ => apply orb_false_iff in H; destruct H
         | H : negb _ = true |- _ => apply negb_true_iff in H
         | H : negb _ = false |- _ => apply negb_false_iff in H
         | H : (_ <? _) = true |- _ => apply Z.ltb_lt in H
         | H : (_ <? _) = false |- _ => apply Z.ltb_ge in H
         | H : (_ <=? _) = true |- _ => apply Z.leb_le in H
         | H : (_ <=? _) = false |- _ => apply Z.leb_gt in H
         | H : (_ =? _) = true |- _ => apply Z.eqb_eq in H
         | H : (_ =? _) = false |- _ => apply Z.eqb_neq in H
         end.

Lemma utf8_decode_ignore_invalid_start (b : byte) (s : pybytes) :
  invalid_start b = true -> utf8_decode Ignore (b :: s) = utf8_decode Ignore s.
Proof.
  unfold invalid_start. cbv zeta. intros H. cbn [utf8_decode].
  decode_cases; unfold on_error; try reflexivity; try discriminate;
    bools_to_props; lia.
Qed.

(** ** The polling loop *)

Lemma Qlt_bool_iff (x y : Q) : Qlt_bool x y = true <-> (x < y)%Q.
Proof.
  unfold Qlt_bool. rewrite negb_true_iff. split.
  - intros H. apply Qnot_le_lt. intros Hle. apply Qle_bool_iff in Hle. congruence.
  - intros H. destruct (Qle_bool y x) eqn:E; [ | reflexivity ].
    apply Qle_bool_iff in E. exfalso. exact (Qlt_not_le _ _ H E).
Qed.

Lemma Qlt_bool_false_iff (x y : Q) : Qlt_bool x y = false <-> (y <= x)%Q.
Proof.
  unfold Qlt_bool. rewrite negb_false_iff. apply Qle_bool_iff.
Qed.

Section ReaderFacts.
Context {tables : UnicodeTables}.
Variable w : World.
Variable pattern : regex.
Variable timeout : Q.

Lemma decode_decoded (i : nat) : utf8_decode Ignore (waiting w i) = Some (decoded w i).
Proof.
  unfold decoded. destruct (utf8_decode_ignore_total (waiting w i)) as [t ->]. reflexivity.
Qed.

Lemma decode_append_decoded (buffer : pystr) (i : nat) :
  decode_append buffer (waiting w i) = Some (buffer ++ decoded w i).
Proof. unfold decode_append. rewrite decode_decoded. reflexivity. Qed.

Lemma decoded_nothing_waiting (i : nat) : in_waiting w i = 0%nat -> decoded w i = [].
Proof.
  unfold in_waiting, decoded. destruct (waiting w i); [ reflexivity | discriminate ].
Qed.

(** One iteration that runs before the deadline and finds nothing. *)
Lemma poll_quiet_step (fuel i : nat) :
  before_deadline w timeout i -> found_at w pattern i = false ->
  poll w (S fuel) pattern timeout (clock w 0) i (accumulated w i)
  = poll w fuel pattern timeout (clock w 0) (S i) (accumulated w (S i)).
Proof.
  intros Hlive Hnone. cbn [poll].
  apply Qlt_bool_iff in Hlive. rewrite Hlive.
  unfold found_at in Hnone.
  destruct (0 <? in_waiting w i)%nat eqn:Hw.
  - rewrite decode_append_decoded. cbn [accumulated] in *.
    destruct (re_search pattern (accumulated w i ++ decoded w i)); [ discriminate | reflexivity ].
  - apply Nat.ltb_ge in Hw. cbn [accumulated].
    rewrite decoded_nothing_waiting by lia. rewrite app_nil_r. reflexivity.
Qed.

Lemma poll_quiet (n fuel i : nat) :
  quiet w pattern timeout i (i + n) ->
  poll w (n + fuel) pattern timeout (clock w 0) i (accumulated w i)
  = poll w fuel pattern timeout (clock w 0) (i + n) (accumulated w (i + n)).
Proof.
  revert i. induction n as [|n IH]; intros i Hq.
  - rewrite Nat.add_0_r. reflexivity.
  - destruct (Hq i ltac:(lia)) as [Hlive Hnone].
    cbn [Nat.add]. rewrite poll_quiet_step by assumption.
    rewrite IH.
    + replace (S i + n)%nat with (i + S n)%nat by lia. reflexivity.
    + intros j Hj. apply Hq. lia.
Qed.

Lemma poll_at_deadline (fuel i : nat) (buffer : pystr) :
  ~ before_deadline w timeout i ->
  poll w (S fuel) pattern timeout (clock w 0) i buffer = Some (Returned AtDeadline buffer).
Proof.
  intros Hdead. cbn [poll].
  destruct (Qlt_bool (clock w (S i) - clock w 0) timeout) eqn:E; [ | reflexivity ].
  apply Qlt_bool_iff in E. contradiction.
Qed.

Lemma poll_at_match (fuel i : nat) :
  before_deadline w timeout i -> found_at w pattern i = true ->
  poll w (S fuel) pattern timeout (clock w 0) i (accumulated w i)
  = Some (Returned AtMatch (accumulated w (S i))).
Proof.
  intros Hlive Hfound. cbn [poll].
  apply Qlt_bool_iff in Hlive. rewrite Hlive.
  unfold found_at in Hfound. apply andb_true_iff in Hfound. destruct Hfound as [Hw Hm].
  rewrite Hw, decode_append_decoded. cbn [accumulated] in *.
  destruct (re_search pattern (accumulated w i ++ decoded w i)); [ reflexivity | discriminate ].
Qed.

Lemma before_deadline_dec (i : nat) :
  {before_deadline w timeout i} + {~ before_deadline w timeout i}.
Proof.
  unfold before_deadline.
  destruct (Qlt_bool (clock w (S i) - clock w 0) timeout) eqn:E.
  - left. apply Qlt_bool_iff. exact E.
  - right. intros H. apply Qlt_bool_iff in H. congruence.
Qed.

Lemma poll_finished (fuel : nat) :
  forall i c, poll w fuel pattern timeout (clock w 0) i (accumulated w i) = Some c ->
              exists k, (k < i + fuel)%nat /\ finished_at w pattern timeout i c k.
Proof.
  induction fuel as [|fuel IH]; intros i c H; [ discriminate | ].
  destruct (before_deadline_dec i) as [Hlive|Hdead].
  - destruct (found_at w pattern i) eqn:Hf.
    + rewrite poll_at_match in H by assumption. injection H as <-.
      exists i. split; [ lia | ].
      apply finished_match; auto. intros j Hj. lia.
    + rewrite poll_quiet_step in H by assumption.
      destruct (IH _ _ H) as (k & Hk & Hfin).
      exists k. split; [ lia | ].
      assert (Hq : forall k', (S i <= k')%nat -> quiet w pattern timeout (S i) k' ->
                              quiet w pattern timeout i k').
      { intros k' Hle Hq j Hj. destruct (Nat.eq_dec j i) as [->|Hne]; [ auto | ].
        apply Hq. lia. }
      destruct Hfin; [ apply finished_deadline | apply finished_match ]; auto; lia.
  - rewrite poll_at_deadline in H by assumption. injection H as <-.
    exists i. split; [ lia | ].
    apply finished_deadline; auto. intros j Hj. lia.
Qed.

Lemma finished_poll (i k : nat) (c : completion) (fuel : nat) :
  finished_at w pattern timeout i c k -> (k < i + fuel)%nat ->
  poll w fuel pattern timeout (clock w 0) i (accumulated w i) = Some c.
Proof.
  intros Hfin Hk.
  assert (Hik : (i <= k)%nat) by (destruct Hfin; assumption).
  replace fuel with ((k - i) + S (fuel - S (k - i)))%nat by lia.
  assert (Hq : quiet w pattern timeout i (i + (k - i))).
  { replace (i + (k - i))%nat with k by lia. destruct Hfin; assumption. }
  rewrite (poll_quiet _ _ Hq).
  replace (i + (k - i))%nat with k by lia.
  destruct Hfin.
  - apply poll_at_deadline. assumption.
  - apply poll_at_match; assumption.
Qed.

End ReaderFacts.

Section ReaderOutcomes.
Context {tables : UnicodeTables}.
Variable w : World.
Variable pattern : regex.
Variable timeout : Q.

Lemma quiet_extend (i k : nat) :
  before_deadline w timeout i -> found_at w pattern i = false ->
  quiet w pattern timeout (S i) k -> quiet w pattern timeout i k.
Proof.
  intros Hlive Hnone Hq j Hj.
  destruct (Nat.eq_dec j i) as [->|Hne]; [ auto | apply Hq; lia ].
Qed.

Lemma finished_extend (i k : nat) (c : completion) :
  before_deadline w timeout i -> found_at w pattern i = false ->
  finished_at w pattern timeout (S i) c k -> finished_at w pattern timeout i c k.
Proof.
  intros Hlive Hnone Hfin.
  destruct Hfin; [ apply finished_deadline | apply finished_match ];
    auto using quiet_extend; lia.
Qed.

(** From any iteration on, a deadline that is reached at some later
    reading of the clock ends the loop no later than there. *)
Lemma finishes_by (n : nat) :
  forall i, ~ before_deadline w timeout (i + n) ->
            exists k c, (i <= k <= i + n)%nat /\ finished_at w pattern timeout i c k.
Proof.
  induction n as [|n IH]; intros i Hdead.
  - rewrite Nat.add_0_r in Hdead.
    exists i, (Returned AtDeadline (accumulated w i)). split; [ lia | ].
    apply finished_deadline; auto. intros j Hj. lia.
  - destruct (before_deadline_dec w timeout i) as [Hlive|Hnow].
    + destruct (found_at w pattern i) eqn:Hf.
      * exists i, (Returned AtMatch (accumulated w (S i))). split; [ lia | ].
        apply finished_match; auto. intros j Hj. lia.
      * destruct (IH (S i)) as (k & c & Hk & Hfin).
        { replace (S i + n)%nat with (i + S n)%nat by lia. exact Hdead. }
        exists k, c. split; [ lia | ]. apply finished_extend; assumption.
    + exists i, (Returned AtDeadline (accumulated w i)). split; [ lia | ].
      apply finished_deadline; auto. intros j Hj. lia.
Qed.

Lemma run_reader_finished (fuel : nat) (c : completion) :
  run_reader w fuel pattern timeout = Some c ->
  exists k, (k < fuel)%nat /\ finished_at w pattern timeout 0 c k.
Proof.
  unfold run_reader. cbv zeta. intros H.
  apply (poll_finished w pattern timeout fuel 0) in H. exact H.
Qed.

Lemma finished_run_reader (k : nat) (c : completion) (fuel : nat) :
  finished_at w pattern timeout 0 c k -> (k < fuel)%nat ->
  run_reader w fuel pattern timeout = Some c.
Proof.
  intros Hfin Hk. unfold run_reader. cbv zeta.
  apply (finished_poll (w := w) (pattern := pattern) (timeout := timeout)) with (k := k);
    [ exact Hfin | lia ].
Qed.

(** The buffer only grows: what was accumulated earlier is a prefix. *)
Lemma accumulated_prefix (j k : nat) :
  (j <= k)%nat -> exists rest, accumulated w k = accumulated w j ++ rest.
Proof.
  induction 1 as [|k Hle [rest IH]].
  - exists []. symmetry. apply app_nil_r.
  - exists (rest ++ decoded w k). cbn [accumulated]. rewrite IH. symmetry. apply app_assoc.
Qed.

Lemma accumulated_length (k : nat) :
  List.length (accumulated w k) = received_length w k.
Proof.
  induction k as [|k IH]; [ reflexivity | ].
  cbn [accumulated received_length]. rewrite length_app, IH. reflexivity.
Qed.

(** After iterations that found nothing, the buffer is empty or the last
    search on it failed. *)
Lemma quiet_buffer (k : nat) :
  quiet w pattern timeout 0 k ->
  accumulated w k = [] \/ re_search pattern (accumulated w k) = None.
Proof.
  induction k as [|k IH]; intros Hq; [ left; reflexivity | ].
  destruct (Hq k ltac:(lia)) as [_ Hnone].
  unfold found_at in Hnone. apply andb_false_iff in Hnone.
  destruct Hnone as [Hw|Hm].
  - apply Nat.ltb_ge in Hw. cbn [accumulated].
    rewrite decoded_nothing_waiting by lia. rewrite app_nil_r.
    apply IH. intros j Hj. apply Hq. lia.
  - right. destruct (re_search pattern (accumulated w (S k))); [ discriminate | reflexivity ].
Qed.

(** With a reading of the clock at or past the deadline, the call returns,
    and the same completion for every amount of fuel past that reading. *)
Lemma reader_finishes (n : nat) :
  (timeout <= clock w (S n) - clock w 0)%Q ->
  exists k c,
    (k <= n)%nat /\ finished_at w pattern timeout 0 c k
    /\ forall fuel, (n < fuel)%nat -> run_reader w fuel pattern timeout = Some c.
Proof.
  intros Hdead.
  destruct (finishes_by n 0) as (k & c & Hk & Hfin).
  { unfold before_deadline. apply Qle_not_lt. exact Hdead. }
  exists k, c. split; [ lia | ]. split; [ exact Hfin | ].
  intros fuel Hfuel. apply (finished_run_reader Hfin). lia.
Qed.

Lemma slice_is_substring (text : pystr) (i j : nat) :
  exists before after, text = before ++ slice text i j ++ after.
Proof.
  exists (firstn i text), (skipn (j - i) (skipn i text)).
  unfold slice. rewrite firstn_skipn, firstn_skipn. reflexivity.
Qed.

End ReaderOutcomes.

(** ** What [read_serial_until_pattern] returns *)

(** C1, as the code has it: when the pattern first matches the accumulated
    buffer at a poll that read bytes, before the deadline, the call returns
    the whole accumulated buffer (not the matched text); the search is made
    on everything accumulated so far, and the matched text lies inside the
    returned buffer. *)
Theorem reader_returns_buffer_at_first_match
        {tables : UnicodeTables} (w : World) (pattern : regex) (timeout : Q)
        (k : nat) (m : match_object) :
  (forall j, (j <= k)%nat -> before_deadline w timeout j) ->
  (0 < in_waiting w k)%nat ->
  re_search pattern (accumulated w (S k)) = Some m ->
  (forall j, (j < k)%nat -> (0 < in_waiting w j)%nat ->
             re_search pattern (accumulated w (S j)) = None) ->
  forall fuel, (k < fuel)%nat ->
    run_reader w fuel pattern timeout = Some (Returned AtMatch (accumulated w (S k)))
    /\ read_serial_until_pattern w fuel pattern timeout = Some (Ok (accumulated w (S k)))
    /\ exists before after,
         accumulated w (S k) = before ++ group0 (accumulated w (S k)) m ++ after.
Proof.
  intros Hlive Hw Hm Hfirst fuel Hfuel.
  assert (Hfin : finished_at w pattern timeout 0
                             (Returned AtMatch (accumulated w (S k))) k).
  { apply finished_match.
    - lia.
    - intros j Hj. split; [ apply Hlive; lia | ].
      unfold found_at. destruct (0 <? in_waiting w j)%nat eqn:E; [ | reflexivity ].
      apply Nat.ltb_lt in E. rewrite (Hfirst j) by (lia || assumption). reflexivity.
    - apply Hlive. lia.
    - unfold found_at. rewrite Hm. apply Nat.ltb_lt in Hw. rewrite Hw. reflexivity. }
  assert (Hrun := finished_run_reader Hfin Hfuel).
  split; [ exact Hrun | ]. split.
  - unfold read_serial_until_pattern. rewrite Hrun. reflexivity.
  - apply slice_is_substring.
Qed.

(** A match that straddles two reads: "ab" then "cd", pattern bc. *)
Lemma reader_returns_buffer_at_first_match_witness :
  run_reader (tables := ascii_tables) (scripted [utf8 "ab"; utf8 "cd"]) 5
             (re_literal (py "bc")) 10
  = Some (Returned AtMatch (py "abcd"))
  /\ read_serial_until_pattern (tables := ascii_tables) (scripted [utf8 "ab"; utf8 "cd"]) 5
                               (re_literal (py "bc")) 10
     = Some (Ok (py "abcd"))
  /\ exists before after, py "abcd" = before ++ py "bc" ++ after.
Proof.
  apply (@reader_returns_buffer_at_first_match ascii_tables
           (scripted [utf8 "ab"; utf8 "cd"]) (re_literal (py "bc")) 10 1%nat
           {| m_start := 1; m_end := 3; m_caps := [] |}).
  - intros j Hj. destruct j as [|[|j]]; [ reflexivity | reflexivity | lia ].
  - vm_compute. lia.
  - vm_compute. reflexivity.
  - intros j Hj _. destruct j as [|j]; [ vm_compute; reflexivity | lia ].
  - lia.
Defined.

(** C1, as the spec states it, fails: the returned text is the buffer
    "abc", while the text matched by the pattern b is "b". *)
Lemma reader_returns_more_than_the_match :
  read_serial_until_pattern (tables := ascii_tables) (scripted [utf8 "abc"]) 5
                            (re_literal (py "b")) 10
  = Some (Ok (py "abc"))
  /\ option_map (group0 (py "abc"))
                (re_search (tables := ascii_tables) (re_literal (py "b")) (py "abc"))
     = Some (py "b")
  /\ (List.length (py "b") < List.length (py "abc"))%nat.
Proof.
  split; [ vm_compute; reflexivity | ].
  split; [ vm_compute; reflexivity | ].
  vm_compute. lia.
Qed.

(** C6: when the pattern matches the buffer at no poll before the deadline,
    the call returns by the deadline path, and the value is everything that
    was decoded and appended until then. *)
Theorem reader_timeout_returns_whole_buffer
        {tables : UnicodeTables} (w : World) (pattern : regex) (timeout : Q) (n : nat) :
  (forall j, (j < n)%nat -> before_deadline w timeout j) ->
  (timeout <= clock w (S n) - clock w 0)%Q ->
  (forall j, (j < n)%nat -> re_search pattern (accumulated w (S j)) = None) ->
  forall fuel, (n < fuel)%nat ->
    run_reader w fuel pattern timeout = Some (Returned AtDeadline (accumulated w n))
    /\ read_serial_until_pattern w fuel pattern timeout = Some (Ok (accumulated w n)).
Proof.
  intros Hlive Hdead Hnone fuel Hfuel.
  assert (Hfin : finished_at w pattern timeout 0
                             (Returned AtDeadline (accumulated w n)) n).
  { apply finished_deadline.
    - lia.
    - intros j Hj. split; [ apply Hlive; lia | ].
      unfold found_at. rewrite (Hnone j) by lia. apply andb_false_r.
    - unfold before_deadline. apply Qle_not_lt. exact Hdead. }
  assert (Hrun := finished_run_reader Hfin Hfuel).
  split; [ exact Hrun | ].
  unfold read_serial_until_pattern. rewrite Hrun. reflexivity.
Qed.

Lemma reader_timeout_returns_whole_buffer_witness :
  run_reader (tables := ascii_tables) (scripted [utf8 "ab"; utf8 "cd"]) 5
             (re_literal (py "zz")) 3
  = Some (Returned AtDeadline (py "abcd"))
  /\ read_serial_until_pattern (tables := ascii_tables) (scripted [utf8 "ab"; utf8 "cd"]) 5
                               (re_literal (py "zz")) 3
     = Some (Ok (py "abcd")).
Proof.
  apply (@reader_timeout_returns_whole_buffer ascii_tables
           (scripted [utf8 "ab"; utf8 "cd"]) (re_literal (py "zz")) 3 2%nat).
  - intros j Hj. destruct j as [|[|j]]; [ reflexivity | reflexivity | lia ].
  - vm_compute. discriminate.
  - intros j Hj. destruct j as [|[|j]]; [ vm_compute; reflexivity .. | lia ].
  - lia.
Defined.

(** C7: once a reading of the clock is at or past the deadline, the loop
    has returned: it evaluates its condition at most up to that reading,
    every iteration it ran began before the deadline, and it ends in a
    [return], whatever the port delivers. *)
Theorem reader_terminates
        {tables : UnicodeTables} (w : World) (pattern : regex) (timeout : Q) (n : nat) :
  (timeout <= clock w (S n) - clock w 0)%Q ->
  exists k path buffer,
    (k <= n)%nat
    /\ (forall j, (j < k)%nat -> before_deadline w timeout j)
    /\ forall fuel, (k < fuel)%nat ->
         run_reader w fuel pattern timeout = Some (Returned path buffer).
Proof.
  intros Hdead.
  destruct (@finishes_by tables w pattern timeout n 0) as (k & c & Hk & Hfin).
  { unfold before_deadline. apply Qle_not_lt. exact Hdead. }
  assert (Hq : quiet w pattern timeout 0 k) by (destruct Hfin; assumption).
  assert (Hc : exists path buffer, c = Returned path buffer)
    by (destruct Hfin; eexists; eexists; reflexivity).
  destruct Hc as (path & buffer & ->).
  exists k, path, buffer. split; [ lia | ]. split.
  - intros j Hj. apply Hq. lia.
  - intros fuel Hfuel. exact (finished_run_reader Hfin Hfuel).
Qed.

(** A port that never delivers a byte, and a deadline of three seconds. *)
Lemma reader_terminates_witness :
  exists k path buffer,
    (k <= 3)%nat
    /\ (forall j, (j < k)%nat -> before_deadline (scripted []) 3 j)
    /\ forall fuel, (k < fuel)%nat ->
         run_reader (tables := ascii_tables) (scripted []) fuel (re_literal (py "x")) 3
         = Some (Returned path buffer).
Proof.
  apply (@reader_terminates ascii_tables (scripted []) (re_literal (py "x")) 3 3%nat).
  vm_compute. discriminate.
Defined.



(** The same pattern and the same returned value on the two exits: with a
    pattern that matches the empty text, a port that stays silent runs into
    the deadline with an empty buffer, and a port that delivers one
    undecodable byte returns at once with an empty buffer too. *)
Example same_value_on_both_exits :
  run_reader (tables := ascii_tables) (scripted []) 5 REmpty 2
  = Some (Returned AtDeadline [])
  /\ run_reader (tables := ascii_tables) (scripted [[xff]]) 5 REmpty 2
     = Some (Returned AtMatch []).
Proof. split; vm_compute; reflexivity. Qed.

(** C2, as the code has it: the buffer has no capacity and nothing is ever
    evicted.  At every point of the wait the buffer is all the text decoded
    so far: after any number of polls that did not end the wait, the loop
    goes on from exactly that text; each poll appends what it decoded to
    what was there; every earlier state of the buffer is a prefix of every
    later one; the length is the number of characters received.  What is
    returned is that buffer as it stands at the poll that ends the wait,
    the first one past the deadline or the first one that finds the
    pattern. *)
Theorem buffer_keeps_everything
        {tables : UnicodeTables} (w : World) (pattern : regex) (timeout : Q) (n : nat) :
  (timeout <= clock w (S n) - clock w 0)%Q ->
  (forall i fuel,
      quiet w pattern timeout 0 i ->
      run_reader w (i + fuel) pattern timeout
      = poll w fuel pattern timeout (clock w 0) i (accumulated w i))
  /\ (forall i, decode_append (accumulated w i) (waiting w i) = Some (accumulated w (S i)))
  /\ (forall i j, (i <= j)%nat -> exists rest, accumulated w j = accumulated w i ++ rest)
  /\ (forall i, List.length (accumulated w i) = received_length w i)
  /\ exists path polls,
       (polls <= n)%nat
       /\ quiet w pattern timeout 0 polls
       /\ match path with
          | AtDeadline =>
            (timeout <= clock w (S polls) - clock w 0)%Q
            /\ forall fuel, (n < fuel)%nat ->
                 run_reader w fuel pattern timeout
                 = Some (Returned AtDeadline (accumulated w polls))
          | AtMatch =>
            before_deadline w timeout polls
            /\ found_at w pattern polls = true
            /\ forall fuel, (n < fuel)%nat ->
                 run_reader w fuel pattern timeout
                 = Some (Returned AtMatch (accumulated w (S polls)))
          end.
Proof.
  intros Hdead.
  split.
  { intros i fuel Hq. unfold run_reader. cbv zeta.
    apply (@poll_quiet tables w pattern timeout i fuel 0). exact Hq. }
  split; [ intros i; apply decode_append_decoded | ].
  split; [ intros i j Hij; apply accumulated_prefix; exact Hij | ].
  split; [ intros i; apply accumulated_length | ].
  destruct (@reader_finishes tables w pattern timeout n Hdead) as (k & c & Hk & Hfin & Hrun).
  destruct Hfin as [k _ Hq Hpast | k _ Hq Hlive Hfound].
  - exists AtDeadline, k. split; [ exact Hk | ]. split; [ exact Hq | ]. split; [ | exact Hrun ].
    unfold before_deadline in Hpast. apply Qnot_lt_le. exact Hpast.
  - exists AtMatch, k. split; [ exact Hk | ]. split; [ exact Hq | ].
    split; [ exact Hlive | ]. split; [ exact Hfound | exact Hrun ].
Qed.

Lemma buffer_keeps_everything_witness :
  (forall i fuel,
      quiet (tables := ascii_tables) three_reads (re_literal (py "z")) 10 0 i ->
      run_reader (tables := ascii_tables) three_reads (i + fuel) (re_literal (py "z")) 10
      = poll (tables := ascii_tables) three_reads fuel (re_literal (py "z")) 10
             (clock three_reads 0) i (accumulated three_reads i))
  /\ (forall i, decode_append (accumulated three_reads i) (waiting three_reads i)
                = Some (accumulated three_reads (S i)))
  /\ (forall i j, (i <= j)%nat ->
        exists rest, accumulated three_reads j = accumulated three_reads i ++ rest)
  /\ (forall i, List.length (accumulated three_reads i) = received_length three_reads i)
  /\ exists path polls,
       (polls <= 9)%nat
       /\ quiet (tables := ascii_tables) three_reads (re_literal (py "z")) 10 0 polls
       /\ match path with
          | AtDeadline =>
            (10 <= clock three_reads (S polls) - clock three_reads 0)%Q
            /\ forall fuel, (9 < fuel)%nat ->
                 run_reader (tables := ascii_tables) three_reads fuel (re_literal (py "z")) 10
                 = Some (Returned AtDeadline (accumulated three_reads polls))
          | AtMatch =>
            before_deadline three_reads 10 polls
            /\ found_at (tables := ascii_tables) three_reads (re_literal (py "z")) polls = true
            /\ forall fuel, (9 < fuel)%nat ->
                 run_reader (tables := ascii_tables) three_reads fuel (re_literal (py "z")) 10
                 = Some (Returned AtMatch (accumulated three_reads (S polls)))
          end.
Proof.
  apply (@buffer_keeps_everything ascii_tables three_reads (re_literal (py "z")) 10 9%nat).
  vm_compute. discriminate.
Defined.

(** C2, as the spec states it, fails: with a maximum of 8, twelve
    characters arrive before the deadline and all twelve are kept. *)
Lemma buffer_exceeds_bound :
  exists buffer,
    read_serial_until_pattern (tables := ascii_tables)
      (scripted [utf8 "aaaa"; utf8 "aaaa"; utf8 "aaaa"]) 20 (re_literal (py "z")) 10
    = Some (Ok buffer)
    /\ (8 < List.length buffer)%nat.
Proof.
  exists (py "aaaaaaaaaaaa"). split; [ vm_compute; reflexivity | vm_compute; lia ].
Qed.

Lemma decode_repeat_ascii (n : nat) :
  utf8_decode Ignore (repeat x61 n) = Some (repeat 97 n).
Proof.
  induction n as [|n IH]; [ reflexivity | ].
  cbn [repeat utf8_decode]. decode_step.
  change (byte_val x61) with 97. cbn [Z.ltb Z.compare Pos.compare Pos.compare_cont].
  rewrite IH. reflexivity.
Qed.

(** No bound holds: for every size, one read of that many bytes and one
    more gives a longer buffer. *)
Lemma buffer_unbounded (bound : nat) :
  exists w buffer,
    read_serial_until_pattern (tables := ascii_tables) w 1 (RChar 97) 2 = Some (Ok buffer)
    /\ (bound < List.length buffer)%nat.
Proof.
  exists (scripted [repeat x61 (S bound)]), (repeat 97 (S bound)).
  split; [ | rewrite repeat_length; lia ].
  unfold read_serial_until_pattern, run_reader. cbv zeta. cbn [poll].
  change (Qlt_bool (clock (scripted [repeat x61 (S bound)]) 1
                    - clock (scripted [repeat x61 (S bound)]) 0) 2) with true.
  cbv beta iota.
  unfold in_waiting. cbn [scripted waiting nth].
  rewrite repeat_length. cbn [Nat.ltb Nat.leb].
  unfold decode_append. rewrite decode_repeat_ascii. reflexivity.
Qed.

(** ** The decoder against the encoder *)












(** ** Decoding and appending *)



(** The strict handler does fail on such bytes: totality is a property of
    the handler the source chose. *)
Example strict_fails_where_ignore_drops :
  utf8_decode Strict (utf8 "T=2" ++ [xff] ++ utf8 "3.5°C") = None
  /\ decode_append (py "log: ") (utf8 "T=2" ++ [xff] ++ utf8 "3.5°C")
     = Some (py "log: T=23.5°C").
Proof. split; vm_compute; reflexivity. Qed.

(** A character whose bytes arrive in two reads is lost: each read is
    decoded on its own. *)
Example split_character_is_dropped :
  run_reader (tables := ascii_tables) (scripted [[x4f; x70; xc3]; [xa9; x72]]) 5
             (re_literal (py "Opér")) 3
  = Some (Returned AtDeadline (py "Opr")).
Proof. vm_compute. reflexivity. Qed.

(** The loop never ends in an exception of the decoder. *)
Lemma reader_never_raises
      {tables : UnicodeTables} (w : World) (pattern : regex) (timeout : Q)
      (fuel : nat) (c : completion) :
  run_reader w fuel pattern timeout = Some c -> exists path buffer, c = Returned path buffer.
Proof.
  intros Hrun.
  destruct (run_reader_finished _ _ _ _ Hrun) as (k & _ & Hfin).
  destruct Hfin; eexists; eexists; reflexivity.
Qed.

(** ** The assertion blocks *)

(** C5, as the code has it: the verdict of the boot scenario is the
    conjunction of its five assertions, but they run in order and the first
    one that fails ends the test: the assertions after it are not
    evaluated, and the failure reported is that first one alone. *)
Theorem boot_sequence_stops_at_first_failure (boot_log : pystr) :
  outcome_of (boot_sequence_checks boot_log)
  = match first_missing boot_sequence_members boot_log with
    | None => Ok tt
    | Some member => Raise (AssertionError member)
    end
  /\ executed (boot_sequence_checks boot_log)
     = calls_until_failure boot_sequence_members boot_log
  /\ (outcome_of (boot_sequence_checks boot_log) = Ok tt
      <-> forallb (fun member => contains member boot_log) boot_sequence_members = true).
Proof.
  unfold boot_sequence_checks, boot_sequence_members, first_missing, assertIn,
    assert_that, bind, outcome_of, executed.
  cbn [find forallb calls_until_failure].
  destruct (contains (py "Démarrage SecureIoT-VIF Community Edition") boot_log);
    destruct (contains (py "Crypto de base initialisé") boot_log);
    destruct (contains (py "Vérification intégrité initiale réussie") boot_log);
    destruct (contains (py "Gestionnaire de capteurs Community initialisé") boot_log);
    destruct (contains (py "Community Edition Opérationnel") boot_log);
    cbn [negb fst snd app andb];
    (split; [ reflexivity | split; [ reflexivity | split; intros H; (reflexivity || discriminate) ] ]).
Qed.

(** A log with the five messages passes. *)
Lemma boot_sequence_stops_at_first_failure_witness :
  outcome_of (boot_sequence_checks (py "I (310) main: Démarrage SecureIoT-VIF Community Edition
I (420) crypto: Crypto de base initialisé
I (530) integrity: Vérification intégrité initiale réussie
I (640) sensors: Gestionnaire de capteurs Community initialisé
I (750) main: Community Edition Opérationnel")) = Ok tt.
Proof.
  apply boot_sequence_stops_at_first_failure. vm_compute. reflexivity.
Defined.

(** The same holds of every test body: what follows an assertion that
    failed is not run. *)
Lemma bind_stops_at_raise (m f : M unit) (e : exn) :
  outcome_of m = Raise e ->
  outcome_of (m ;; f) = Raise e /\ executed (m ;; f) = executed m.
Proof.
  destruct m as [calls r]. unfold outcome_of, executed, bind. cbn [snd fst].
  intros ->. split; reflexivity.
Qed.

(** C5, as the spec states it, fails: on a log that lacks three of the five
    messages, two assertions are evaluated and one failure is reported. *)
Lemma boot_sequence_reports_one_failure :
  let boot_log := py "Démarrage SecureIoT-VIF Community Edition
Community Edition Opérationnel" in
  List.length (failing_members boot_sequence_members boot_log) = 3%nat
  /\ List.length (executed (boot_sequence_checks boot_log)) = 2%nat
  /\ outcome_of (boot_sequence_checks boot_log)
     = Raise (AssertionError (py "Crypto de base initialisé")).
Proof. repeat split; vm_compute; reflexivity. Qed.

Section FeatureChecks.
Context {tables : UnicodeTables}.

Lemma bind_unit_outcome (m : M unit) (f : M unit) :
  outcome_of (m ;; f)
  = match outcome_of m with
    | Ok _ => outcome_of f
    | Raise e => Raise e
    end.
Proof.
  destruct m as [calls [[]|e]]; [ | reflexivity ].
  unfold bind, outcome_of. destruct f as [calls' r]. reflexivity.
Qed.

(** The loop over the features passes exactly when no feature occurs or
    the disclaimer condition holds; otherwise it fails at the first feature
    that occurs. *)
Lemma check_features_outcome (features : list pystr) (log_buffer : pystr) :
  outcome_of (check_features features log_buffer)
  = match find (fun feature => contains feature log_buffer) features with
    | Some feature =>
      if disclaimer_present log_buffer then Ok tt
      else Raise (AssertionError (feature_message feature))
    | None => Ok tt
    end.
Proof.
  induction features as [|feature rest IH]; [ reflexivity | ].
  cbn [check_features find]. rewrite bind_unit_outcome, IH.
  destruct (contains feature log_buffer); [ | reflexivity ].
  unfold assertTrue, assert_that, outcome_of. cbn [snd].
  destruct (disclaimer_present log_buffer); [ | reflexivity ].
  destruct (find _ rest); reflexivity.
Qed.

Lemma find_none_existsb (A : Type) (f : A -> bool) (l : list A) :
  find f l = None <-> existsb f l = false.
Proof.
  induction l as [|a l IH]; [ split; reflexivity | ].
  cbn [find existsb]. destruct (f a); [ split; discriminate | exact IH ].
Qed.

End FeatureChecks.

(** C3, as the code has it: the check of the enterprise features passes if
    and only if none of the features occurs in the buffer, or one of the
    disclaimers occurs anywhere in the buffer ("non disponible" or
    "Enterprise" as written, "pas de" in the lowercased buffer); where the
    disclaimer stands relative to the feature plays no part. *)
Theorem enterprise_check_looks_at_whole_buffer
        {tables : UnicodeTables} (log_buffer : pystr) :
  outcome_of (no_enterprise_features_checks log_buffer) = Ok tt
  <-> (existsb (fun feature => contains feature log_buffer) enterprise_features = false
       \/ disclaimer_present log_buffer = true).
Proof.
  unfold no_enterprise_features_checks. rewrite check_features_outcome.
  rewrite <- find_none_existsb.
  destruct (find (fun feature => contains feature log_buffer) enterprise_features);
    destruct (disclaimer_present log_buffer); split; intros H;
      try reflexivity; try discriminate; auto.
  destruct H; discriminate.
Qed.

(** A feature named with its disclaimer. *)
Lemma enterprise_check_looks_at_whole_buffer_witness :
  outcome_of (no_enterprise_features_checks (tables := ascii_tables)
                (py "Info: Pas de TRNG en Community")) = Ok tt.
Proof.
  apply enterprise_check_looks_at_whole_buffer. right. vm_compute. reflexivity.
Defined.

(** C3, as the spec states it, fails: TRNG stands on the first line with no
    disclaimer on that line nor on the five lines around it, "Enterprise"
    stands nine lines below, and the check passes. *)
Lemma far_disclaimer_passes :
  let log_buffer := py "TRNG actif








Support Enterprise" in
  contains (py "TRNG") log_buffer = true
  /\ spec_MustNotContain 0 (py "TRNG") spec_qualifiers log_buffer = false
  /\ spec_MustNotContain 5 (py "TRNG") spec_qualifiers log_buffer = false
  /\ outcome_of (no_enterprise_features_checks (tables := ascii_tables) log_buffer) = Ok tt.
Proof. repeat split; vm_compute; reflexivity. Qed.

(** With the disclaimer on the line of the feature, the spec's assertion
    and the check of the source agree. *)
Example same_line_disclaimer_passes :
  let log_buffer := py "TRNG non disponible en Community" in
  spec_MustNotContain 0 (py "TRNG") spec_qualifiers log_buffer = true
  /\ outcome_of (no_enterprise_features_checks (tables := ascii_tables) log_buffer) = Ok tt.
Proof. repeat split; vm_compute; reflexivity. Qed.

Example unqualified_feature_fails :
  outcome_of (no_enterprise_features_checks (tables := ascii_tables) (py "TRNG actif"))
  = Raise (AssertionError (feature_message (py "TRNG"))).
Proof. vm_compute. reflexivity. Qed.

Lemma bind_ret_outcome (A B : Type) (a : A) (f : A -> M B) :
  outcome_of (bind (ret a) f) = outcome_of (f a).
Proof. unfold bind, ret, outcome_of. destruct (f a). reflexivity. Qed.

(** The verdict of the four range assertions on a temperature and a
    humidity. *)
Lemma range_assertions_outcome (t h : pyfloat) :
  outcome_of (assertGreaterEqual t (-40) dht22_temperature ;;
              assertLessEqual t 80 dht22_temperature ;;
              assertGreaterEqual h 0 dht22_humidity ;;
              assertLessEqual h 100 dht22_humidity)
  = if float_ge t (-40) && float_le t 80
    then if float_ge h 0 && float_le h 100 then Ok tt
         else Raise (AssertionError dht22_humidity)
    else Raise (AssertionError dht22_temperature).
Proof.
  unfold assertGreaterEqual, assertLessEqual, assert_that, bind, outcome_of.
  destruct (float_ge t (-40)); destruct (float_le t 80);
    destruct (float_ge h 0); destruct (float_le h 100); reflexivity.
Qed.

Lemma sensor_reading_outcome {tables : UnicodeTables} (sensor_log : pystr) :
  contains (py "Données capteur:") sensor_log = true ->
  (re_search sensor_pattern sensor_log = None ->
   outcome_of (sensor_reading_checks sensor_log) = Ok tt)
  /\ (forall m temp humidity t h,
         re_search sensor_pattern sensor_log = Some m ->
         group sensor_log m 1 = Some temp ->
         group sensor_log m 2 = Some humidity ->
         py_float temp = inr t ->
         py_float humidity = inr h ->
         outcome_of (sensor_reading_checks sensor_log)
         = if float_ge t (-40) && float_le t 80
           then if float_ge h 0 && float_le h 100 then Ok tt
                else Raise (AssertionError dht22_humidity)
           else Raise (AssertionError dht22_temperature)).
Proof.
  intros Hline. unfold sensor_reading_checks.
  rewrite bind_unit_outcome.
  assert (Hin : outcome_of (assertIn (py "Données capteur:") sensor_log) = Ok tt).
  { unfold assertIn, assert_that, outcome_of. rewrite Hline. reflexivity. }
  split.
  - intros ->. rewrite Hin. reflexivity.
  - intros m temp humidity t h -> -> -> Ht Hh.
    rewrite Hin, Ht, Hh. cbn [lift].
    rewrite bind_ret_outcome. cbv beta. rewrite bind_ret_outcome. cbv beta.
    apply range_assertions_outcome.
Qed.

Lemma bind_raise_outcome (A B : Type) (e : exn) (f : A -> M B) :
  outcome_of (bind (raise e) f) = Raise e.
Proof. reflexivity. Qed.

(** What the test does with a reading that the pattern found. *)
Lemma found_reading_outcome {tables : UnicodeTables} (sensor_log : pystr)
      (m : match_object) (temp humidity : pystr) :
  contains (py "Données capteur:") sensor_log = true ->
  re_search sensor_pattern sensor_log = Some m ->
  group sensor_log m 1 = Some temp ->
  group sensor_log m 2 = Some humidity ->
  outcome_of (sensor_reading_checks sensor_log)
  = match py_float temp with
    | inl e => Raise e
    | inr t =>
      match py_float humidity with
      | inl e => Raise e
      | inr h =>
        if float_ge t (-40) && float_le t 80
        then if float_ge h 0 && float_le h 100 then Ok tt
             else Raise (AssertionError dht22_humidity)
        else Raise (AssertionError dht22_temperature)
      end
    end.
Proof.
  intros Hline Hm H1 H2. unfold sensor_reading_checks.
  rewrite bind_unit_outcome.
  assert (Hin : outcome_of (assertIn (py "Données capteur:") sensor_log) = Ok tt).
  { unfold assertIn, assert_that, outcome_of. rewrite Hline. reflexivity. }
  rewrite Hin, Hm, H1, H2.
  destruct (py_float temp) as [e|t]; cbn [lift]; [ apply bind_raise_outcome | ].
  rewrite bind_ret_outcome. cbv beta.
  destruct (py_float humidity) as [e|h]; cbn [lift]; [ apply bind_raise_outcome | ].
  rewrite bind_ret_outcome. cbv beta.
  apply range_assertions_outcome.
Qed.

Lemma finite_ranges (qt qh : Q) :
  (if float_ge (Finite qt) (-40) && float_le (Finite qt) 80
   then if float_ge (Finite qh) 0 && float_le (Finite qh) 100 then Ok tt
        else Raise (AssertionError dht22_humidity)
   else Raise (AssertionError dht22_temperature)) = Ok tt
  <-> (-40 <= qt /\ qt <= 80 /\ 0 <= qh /\ qh <= 100)%Q.
Proof.
  cbn [float_ge float_le].
  rewrite <- !Qle_bool_iff.
  destruct (Qle_bool (-40) qt); destruct (Qle_bool qt 80);
    destruct (Qle_bool 0 qh); destruct (Qle_bool qh 100); cbn [andb];
      split; try discriminate; try reflexivity; try tauto;
      intros (H1 & H2 & H3 & H4); discriminate.
Qed.

(** C4, as the code has it: on a log that has the sensor line, a reading
    that the pattern does not find is not checked and the test passes; a
    reading that is found, with two fields that [float] accepts, is checked
    inclusively, the temperature against [-40, 80] and the humidity against
    [0, 100], and a value outside its range fails the test with an
    assertion failure, the temperature first.  Both fields are converted
    before any value is checked: a field that [float] rejects ends the
    test with ValueError, whatever the other value is.  The reading
    T=23.5°C, H=45.0% passes; the reading T=150.0°C, H=45.0% is found and
    fails on its temperature; the reading T=150.0°C, H=-% is found and
    ends in ValueError. *)
Theorem sensor_reading_verdict :
  (forall (tables : UnicodeTables) (sensor_log : pystr),
      contains (py "Données capteur:") sensor_log = true ->
      (re_search sensor_pattern sensor_log = None ->
       outcome_of (sensor_reading_checks sensor_log) = Ok tt)
      /\ (forall m temp humidity,
             re_search sensor_pattern sensor_log = Some m ->
             group sensor_log m 1 = Some temp ->
             group sensor_log m 2 = Some humidity ->
             outcome_of (sensor_reading_checks sensor_log)
             = match py_float temp with
               | inl e => Raise e
               | inr t =>
                 match py_float humidity with
                 | inl e => Raise e
                 | inr h =>
                   if float_ge t (-40) && float_le t 80
                   then if float_ge h 0 && float_le h 100 then Ok tt
                        else Raise (AssertionError dht22_humidity)
                   else Raise (AssertionError dht22_temperature)
                 end
               end)
      /\ (forall m temp humidity qt qh,
             re_search sensor_pattern sensor_log = Some m ->
             group sensor_log m 1 = Some temp ->
             group sensor_log m 2 = Some humidity ->
             py_float temp = inr (Finite qt) ->
             py_float humidity = inr (Finite qh) ->
             (outcome_of (sensor_reading_checks sensor_log) = Ok tt
              <-> (-40 <= qt /\ qt <= 80 /\ 0 <= qh /\ qh <= 100)%Q)
             /\ (~ (-40 <= qt /\ qt <= 80)%Q ->
                 outcome_of (sensor_reading_checks sensor_log)
                 = Raise (AssertionError dht22_temperature))
             /\ ((-40 <= qt /\ qt <= 80)%Q -> ~ (0 <= qh /\ qh <= 100)%Q ->
                 outcome_of (sensor_reading_checks sensor_log)
                 = Raise (AssertionError dht22_humidity))))
  /\ outcome_of (sensor_reading_checks (tables := ascii_tables)
                   (py "Données capteur: T=23.5°C, H=45.0%")) = Ok tt
  /\ (exists m,
         re_search (tables := ascii_tables) sensor_pattern
                   (py "Données capteur: T=150.0°C, H=45.0%") = Some m
         /\ group (py "Données capteur: T=150.0°C, H=45.0%") m 1 = Some (py "150.0"))
  /\ outcome_of (sensor_reading_checks (tables := ascii_tables)
                   (py "Données capteur: T=150.0°C, H=45.0%"))
     = Raise (AssertionError dht22_temperature)
  /\ outcome_of (sensor_reading_checks (tables := ascii_tables)
                   (py "Données capteur: T=150.0°C, H=-%"))
     = Raise ValueError.
Proof.
  split.
  { intros tables sensor_log Hline.
    split; [ apply sensor_reading_outcome; exact Hline | ].
    split; [ intros m temp humidity Hm H1 H2;
             exact (found_reading_outcome _ Hline Hm H1 H2) | ].
    intros m temp humidity qt qh Hm H1 H2 Ht Hh.
    rewrite (found_reading_outcome _ Hline Hm H1 H2), Ht, Hh.
    split; [ apply finite_ranges | ].
    cbn [float_ge float_le]. split.
    - intros Hout.
      destruct (Qle_bool (-40) qt) eqn:E1; destruct (Qle_bool qt 80) eqn:E2;
        cbn [andb]; try reflexivity.
      exfalso. apply Hout. split; apply Qle_bool_iff; assumption.
    - intros [Ht1 Ht2] Hout.
      apply Qle_bool_iff in Ht1. apply Qle_bool_iff in Ht2. rewrite Ht1, Ht2. cbn [andb].
      destruct (Qle_bool 0 qh) eqn:E1; destruct (Qle_bool qh 100) eqn:E2;
        cbn [andb]; try reflexivity.
      exfalso. apply Hout. split; apply Qle_bool_iff; assumption. }
  split; [ vm_compute; reflexivity | ].
  split; [ | split; vm_compute; reflexivity ].
  eexists. split; vm_compute; reflexivity.
Qed.

(** The reading T=-40.0°C, H=100%, on the two bounds: it is found, and
    both values pass. *)
Lemma sensor_reading_verdict_witness :
  outcome_of (sensor_reading_checks (tables := ascii_tables)
                (py "Données capteur: T=-40.0°C, H=100%")) = Ok tt.
Proof.
  destruct sensor_reading_verdict as [general _].
  destruct (general ascii_tables (py "Données capteur: T=-40.0°C, H=100%"))
    as (_ & _ & Hfinite).
  - vm_compute. reflexivity.
  - eapply Hfinite; [ vm_compute; reflexivity .. | ].
    vm_compute. repeat split; discriminate.
Defined.

(** C4, as the spec states it, fails: on a log in which the field pattern
    matches nothing, the test passes. *)
Lemma missing_reading_passes :
  re_search (tables := ascii_tables) sensor_pattern (py "Données capteur: aucune mesure")
  = None
  /\ outcome_of (sensor_reading_checks (tables := ascii_tables)
                   (py "Données capteur: aucune mesure")) = Ok tt.
Proof. split; vm_compute; reflexivity. Qed.

Example humidity_out_of_range_fails :
  outcome_of (sensor_reading_checks (tables := ascii_tables)
                (py "Données capteur: T=23.5°C, H=100.1%"))
  = Raise (AssertionError dht22_humidity).
Proof. vm_compute. reflexivity. Qed.

(** A temperature without a humidity is not a reading for the pattern. *)
Example temperature_alone_is_not_checked :
  outcome_of (sensor_reading_checks (tables := ascii_tables)
                (py "Données capteur: T=150.0°C")) = Ok tt.
Proof. vm_compute. reflexivity. Qed.

(** A field the pattern accepts and [float] does not: an error, not a
    failure of an assertion. *)
Example malformed_number_is_an_error :
  outcome_of (sensor_reading_checks (tables := ascii_tables)
                (py "Données capteur: T=1.2.3°C, H=45.0%")) = Raise ValueError.
Proof. vm_compute. reflexivity. Qed.

(** ** The runner *)

Lemma run_from_counts (suite : list scenario) :
  forall index r,
    List.length (failures (run_from index suite r))
    = (List.length (failures r) + count_outcomes is_failure suite)%nat
    /\ List.length (errors (run_from index suite r))
       = (List.length (errors r) + count_outcomes is_error suite)%nat
    /\ List.length (skipped (run_from index suite r))
       = (List.length (skipped r) + count_outcomes is_skipped suite)%nat
    /\ testsRun (run_from index suite r) = (testsRun r + List.length suite)%nat.
Proof.
  unfold count_outcomes.
  induction suite as [|s rest IH]; intros index r.
  - cbn. repeat split; lia.
  - cbn [run_from filter List.length].
    destruct (IH (S index) (record_outcome r index (run_scenario s))) as (Hf & He & Hs & Hn).
    rewrite Hf, He, Hs, Hn.
    destruct (run_scenario s); cbn [record_outcome failures errors skipped testsRun
                                    is_failure is_error is_skipped List.length];
      rewrite ?length_app; cbn [List.length]; repeat split; lia.
Qed.

Lemma count_zero_iff (kind : outcome -> bool) (suite : list scenario) :
  count_outcomes kind suite = 0%nat
  <-> forall s, In s suite -> kind (run_scenario s) = false.
Proof.
  unfold count_outcomes. induction suite as [|s rest IH].
  - split; [ intros _ s [] | reflexivity ].
  - cbn [filter In]. destruct (kind (run_scenario s)) eqn:E.
    + split; [ discriminate | ]. intros H. specialize (H s (or_introl eq_refl)). congruence.
    + rewrite IH. split.
      * intros H s' [<-|Hin]; auto.
      * intros H s' Hin. apply H. right. exact Hin.
Qed.

Lemma wasSuccessful_iff (suite : list scenario) :
  wasSuccessful (runner_run suite) = true
  <-> forall s, In s suite -> run_scenario s = Skipped \/ run_scenario s = Success.
Proof.
  unfold wasSuccessful, runner_run.
  destruct (run_from_counts suite 0 empty_result) as (Hf & He & _ & _).
  rewrite Hf, He. cbn [empty_result failures errors List.length Nat.add].
  rewrite andb_true_iff, !Nat.eqb_eq, !count_zero_iff.
  split.
  - intros [Hfail Herr] s Hin.
    specialize (Hfail s Hin). specialize (Herr s Hin).
    destruct (run_scenario s); cbn in *; auto; discriminate.
  - intros H. split; intros s Hin; destruct (H s Hin) as [-> | ->]; reflexivity.
Qed.

Lemma outcome_kinds (s : scenario) :
  is_failure (run_scenario s) = method_failed s
  /\ is_error (run_scenario s) = method_errored s
  /\ is_skipped (run_scenario s) = negb (port_opened s).
Proof.
  unfold run_scenario, method_failed, method_errored, classify.
  destruct (port_opened s); [ | repeat split ].
  destruct (method_result s) as [[]|[]]; repeat split.
Qed.

Lemma count_outcomes_by_input (suite : list scenario) :
  count_outcomes is_failure suite = List.length (filter method_failed suite)
  /\ count_outcomes is_error suite = List.length (filter method_errored suite)
  /\ count_outcomes is_skipped suite
     = List.length (filter (fun s => negb (port_opened s)) suite).
Proof.
  unfold count_outcomes.
  repeat split; f_equal; apply filter_ext; intros s; apply outcome_kinds.
Qed.

Lemma passed_or_skipped (s : scenario) :
  (run_scenario s = Skipped \/ run_scenario s = Success)
  <-> (port_opened s = true -> method_result s = Ok tt).
Proof.
  unfold run_scenario, classify.
  destruct (port_opened s).
  - destruct (method_result s) as [[]|[]]; split; intros H;
      try (right; reflexivity); try reflexivity;
      try (destruct H; discriminate); try (specialize (H eq_refl); discriminate).
  - split; [ intros _ H; discriminate | intros _; left; reflexivity ].
Qed.

(** C8: the exit status is 0 if and only if every scenario whose port was
    opened (every scenario that was not skipped) ran its test method to the
    end without an exception, and 1 otherwise; a scenario whose port could
    not be opened is counted neither as a failure nor as an error, and the
    summary of the runner lists the skipped ones apart. *)
Theorem exit_status_success_iff (suite : list scenario) :
  (exit_status suite = 0
   <-> forall s, In s suite -> port_opened s = true -> method_result s = Ok tt)
  /\ (exit_status suite = 0 \/ exit_status suite = 1)
  /\ listed_skipped (runner_summary (runner_run suite))
     = List.length (filter (fun s => negb (port_opened s)) suite)
  /\ listed_failures (runner_summary (runner_run suite))
     = List.length (filter method_failed suite)
  /\ listed_errors (runner_summary (runner_run suite))
     = List.length (filter method_errored suite)
  /\ (status_ok (runner_summary (runner_run suite)) = true <-> exit_status suite = 0)
  /\ testsRun (runner_run suite) = List.length suite.
Proof.
  destruct (run_from_counts suite 0 empty_result) as (Hf & He & Hs & Hn).
  destruct (count_outcomes_by_input suite) as (Hfi & Hei & Hsi).
  assert (Hexit : exit_status suite = 0 <-> wasSuccessful (runner_run suite) = true).
  { unfold exit_status, run_community_tests. cbv zeta.
    destruct (wasSuccessful (runner_run suite)); split; intros H;
      (reflexivity || discriminate). }
  split.
  - rewrite Hexit, wasSuccessful_iff. split; intros H s Hin.
    + apply passed_or_skipped. apply H. exact Hin.
    + apply passed_or_skipped. apply H. exact Hin.
  - split.
    + unfold exit_status. cbv zeta. destruct (run_community_tests suite); auto.
    + unfold runner_summary. cbn [listed_skipped listed_failures listed_errors status_ok].
      unfold runner_run in *. rewrite Hf, He, Hs, Hn, Hfi, Hei, Hsi.
      repeat split; try apply Hexit; intros H; apply Hexit; exact H.
Qed.

(** One test that passes and one that is skipped. *)
Lemma exit_status_success_iff_witness :
  exit_status [ {| port_opened := true; method_result := Ok tt |};
                {| port_opened := false; method_result := Raise ValueError |} ] = 0.
Proof.
  destruct (exit_status_success_iff
              [ {| port_opened := true; method_result := Ok tt |};
                {| port_opened := false; method_result := Raise ValueError |} ])
    as [[_ Hpassed] _].
  apply Hpassed.
  intros s [<- | [<- | []]]; [ reflexivity | discriminate ].
Defined.

(** A method that raised [AssertionError] with its port open gives the exit
    status 1, whatever the other tests did. *)
Lemma a_failure_exits_one (suite : list scenario) (s : scenario) :
  In s suite -> method_failed s = true -> exit_status suite = 1.
Proof.
  intros Hin Hfailed.
  destruct (wasSuccessful (runner_run suite)) eqn:E.
  - exfalso.
    pose proof (proj1 (passed_or_skipped s) (proj1 (wasSuccessful_iff suite) E s Hin)) as Hok.
    unfold method_failed in Hfailed. apply andb_true_iff in Hfailed.
    destruct Hfailed as [Hport Hraised]. rewrite (Hok Hport) in Hraised. discriminate.
  - unfold exit_status, run_community_tests. cbv zeta. rewrite E. reflexivity.
Qed.

(** A port that is absent for each of three tests: all are skipped, the
    exit status is 0, and the summary lists three skipped tests. *)
Example all_skipped_exits_zero :
  let absent := {| port_opened := false; method_result := Ok tt |} in
  exit_status [absent; absent; absent] = 0
  /\ runner_summary (runner_run [absent; absent; absent])
     = {| status_ok := true; listed_failures := 0; listed_errors := 0; listed_skipped := 3 |}.
Proof. split; reflexivity. Qed.

Example one_failure_exits_one :
  exit_status [ {| port_opened := true; method_result := Ok tt |};
                {| port_opened := true;
                   method_result := Raise (AssertionError (py "TRNG")) |};
                {| port_opened := false; method_result := Ok tt |} ] = 1.
Proof. reflexivity. Qed.

(** ** Whole test methods on scripted ports *)

Example sensor_test_on_a_split_line :
  option_map outcome_of
    (test_community_sensor_reading (tables := ascii_tables)
       (scripted [utf8 "I (512) sensor: Données cap"; utf8 "teur: T=23.5°C, H=45.0%"]) 40)
  = Some (Ok tt).
Proof. vm_compute. reflexivity. Qed.

(** On a silent port the boot test waits for its thirty seconds and fails
    on its first assertion. *)
Example boot_test_on_a_silent_port :
  option_map outcome_of
    (test_community_boot_sequence (tables := ascii_tables) (scripted []) 40)
  = Some (Raise (AssertionError (py "Démarrage SecureIoT-VIF Community Edition"))).
Proof. vm_compute. reflexivity. Qed.

Example enterprise_test_on_a_community_banner :
  option_map outcome_of
    (test_community_no_enterprise_features (tables := ascii_tables)
       (scripted [utf8 "SecureIoT-VIF Community Edition"]) 40)
  = Some (Ok tt).
Proof. vm_compute. reflexivity. Qed.

(** * Further properties of the code *)

(** ** The [in] operator *)

Lemma startswith_app (a s : pystr) : startswith a (a ++ s) = true.
Proof.
  induction a as [|c a IH]; [ reflexivity | ].
  cbn [app startswith]. rewrite Z.eqb_refl, IH. reflexivity.
Qed.

Lemma startswith_split (a s : pystr) :
  startswith a s = true -> exists post, s = a ++ post.
Proof.
  revert s. induction a as [|c a IH]; intros s H.
  - exists s. reflexivity.
  - destruct s as [|x s]; [ discriminate | ].
    cbn [startswith] in H. apply andb_true_iff in H. destruct H as [Hc Ha].
    apply Z.eqb_eq in Hc. subst x.
    destruct (IH s Ha) as [post ->]. exists post. reflexivity.
Qed.

Lemma contains_infix (a pre post : pystr) : contains a (pre ++ a ++ post) = true.
Proof.
  induction pre as [|x pre IH].
  - cbn [app]. destruct (a ++ post) eqn:E; cbn [contains];
      rewrite <- E, startswith_app; reflexivity.
  - cbn [app contains]. rewrite IH. apply orb_true_r.
Qed.

Lemma contains_split (a s : pystr) :
  contains a s = true -> exists pre post, s = pre ++ a ++ post.
Proof.
  induction s as [|x s IH]; cbn [contains]; intros H.
  - rewrite orb_false_r in H. destruct (startswith_split _ _ H) as [post ->].
    exists [], post. reflexivity.
  - apply orb_true_iff in H. destruct H as [H|H].
    + destruct (startswith_split _ _ H) as [post ->]. exists [], post. reflexivity.
    + destruct (IH H) as (pre & post & ->). exists (x :: pre), post. reflexivity.
Qed.

(** A text that holds [b] holds every text that [b] holds. *)
Lemma contains_trans (a b s : pystr) :
  contains a b = true -> contains b s = true -> contains a s = true.
Proof.
  intros Hab Hbs.
  destruct (contains_split _ _ Hab) as (p1 & q1 & ->).
  destruct (contains_split _ _ Hbs) as (p2 & q2 & ->).
  replace (p2 ++ (p1 ++ a ++ q1) ++ q2) with ((p2 ++ p1) ++ a ++ (q1 ++ q2))
    by (rewrite <- !app_assoc; reflexivity).
  apply contains_infix.
Qed.

Lemma contains_absent (a b s : pystr) :
  contains a b = true -> contains a s = false -> contains b s = false.
Proof.
  intros Hab Has. destruct (contains b s) eqn:E; [ | reflexivity ].
  rewrite (contains_trans _ _ _ Hab E) in Has. discriminate.
Qed.

(** ** The wait and the assertions of a test method together *)

Ltac split_on_contains log :=
  repeat match goal with
         | |- context [contains ?a log] => destruct (contains a log) eqn:?
         end.

Ltac unfold_assertions :=
  unfold assertIn, assertNotIn, assertTrue, assertGreater, assert_that, bind, ret,
    outcome_of, executed.

Ltac run_assertions :=
  unfold_assertions; cbn [negb fst snd app andb orb].

(** After a wait for a literal that ran into the deadline, the returned
    buffer does not hold the literal. *)
Lemma timed_out_buffer_lacks_literal
      {tables : UnicodeTables} (w : World) (literal : pystr) (timeout : Q)
      (fuel : nat) (buffer : pystr) :
  contains literal [] = false ->
  run_reader w fuel (re_literal literal) timeout = Some (Returned AtDeadline buffer) ->
  contains literal buffer = false.
Proof.
  intros Hnonempty Hrun.
  destruct (run_reader_finished _ _ _ _ Hrun) as (k & _ & Hfin).
  inversion Hfin as [k' _ Hq _ Hc Hk | k' _ _ _ _ Hc Hk]; subst.
  destruct (quiet_buffer Hq) as [-> | Hnone]; [ exact Hnonempty | ].
  destruct (contains literal (accumulated w k)) eqn:E; [ | reflexivity ].
  apply re_search_literal in E. destruct E as [m Hm]. congruence.
Qed.

Lemma run_test_method_returned
      {tables : UnicodeTables} (w : World) (fuel : nat) (pattern : regex) (timeout : Q)
      (checks : pystr -> M unit) (path : exit_path) (buffer : pystr) :
  run_reader w fuel pattern timeout = Some (Returned path buffer) ->
  run_test_method w fuel pattern timeout checks = Some (checks buffer).
Proof.
  intros Hrun. unfold run_test_method, read_serial_until_pattern.
  rewrite Hrun. reflexivity.
Qed.

(** After a wait for a literal that found it, the returned buffer holds
    the literal. *)
Lemma matched_buffer_holds_literal
      {tables : UnicodeTables} (w : World) (literal : pystr) (timeout : Q)
      (fuel : nat) (buffer : pystr) :
  run_reader w fuel (re_literal literal) timeout = Some (Returned AtMatch buffer) ->
  contains literal buffer = true.
Proof.
  intros Hrun.
  destruct (run_reader_finished _ _ _ _ Hrun) as (k & _ & Hfin).
  inversion Hfin as [k' _ _ _ Hc Hk | k' _ _ _ Hfound Hc Hk]; subst.
  unfold found_at in Hfound. apply andb_true_iff in Hfound. destruct Hfound as [_ Hm].
  apply re_search_literal.
  destruct (re_search (re_literal literal) (accumulated w (S k))) as [m|] eqn:E;
    [ exists m; exact E | discriminate ].
Qed.

(** X4: The boot test waits for the literal that is also its last assertion.
    So it passes exactly when the wait found the literal and the log holds
    the four other messages, and it never passes on a wait that timed
    out. *)
Theorem boot_test_passes_iff
        {tables : UnicodeTables} (w : World) (fuel : nat)
        (path : exit_path) (buffer : pystr) :
  run_reader w fuel (re_literal (py "Community Edition Opérationnel")) 30
  = Some (Returned path buffer) ->
  exists m,
    test_community_boot_sequence w fuel = Some m
    /\ (outcome_of m = Ok tt
        <-> path = AtMatch
            /\ contains (py "Démarrage SecureIoT-VIF Community Edition") buffer = true
            /\ contains (py "Crypto de base initialisé") buffer = true
            /\ contains (py "Vérification intégrité initiale réussie") buffer = true
            /\ contains (py "Gestionnaire de capteurs Community initialisé") buffer = true).
Proof.
  intros Hrun.
  exists (boot_sequence_checks buffer).
  unfold test_community_boot_sequence.
  rewrite (@run_test_method_returned tables w fuel _ _ boot_sequence_checks _ _ Hrun).
  split; [ reflexivity | ].
  assert (Hlast : contains (py "Community Edition Opérationnel") buffer
                  = match path with AtMatch => true | AtDeadline => false end).
  { destruct path.
    - exact (matched_buffer_holds_literal _ _ _ _ Hrun).
    - apply (fun nonempty =>
               @timed_out_buffer_lacks_literal tables w _ _ fuel buffer nonempty Hrun).
      reflexivity. }
  clear Hrun. unfold boot_sequence_checks. revert Hlast. unfold_assertions.
  split_on_contains buffer; destruct path; intros Hlast; try discriminate;
    cbn [negb fst snd app andb orb]; split; intros H;
      try discriminate; try reflexivity;
      try (repeat split; reflexivity);
      try (destruct H as (? & ? & ? & ? & ?); discriminate).
Qed.

Lemma boot_test_passes_iff_witness :
  exists m,
    test_community_boot_sequence (tables := ascii_tables)
      (scripted [utf8 "Démarrage SecureIoT-VIF Community Edition"]) 40 = Some m
    /\ (outcome_of m = Ok tt
        <-> AtDeadline = AtMatch
            /\ contains (py "Démarrage SecureIoT-VIF Community Edition")
                        (py "Démarrage SecureIoT-VIF Community Edition") = true
            /\ contains (py "Crypto de base initialisé")
                        (py "Démarrage SecureIoT-VIF Community Edition") = true
            /\ contains (py "Vérification intégrité initiale réussie")
                        (py "Démarrage SecureIoT-VIF Community Edition") = true
            /\ contains (py "Gestionnaire de capteurs Community initialisé")
                        (py "Démarrage SecureIoT-VIF Community Edition") = true).
Proof.
  apply (@boot_test_passes_iff ascii_tables
           (scripted [utf8 "Démarrage SecureIoT-VIF Community Edition"]) 40%nat
           AtDeadline (py "Démarrage SecureIoT-VIF Community Edition")).
  vm_compute. reflexivity.
Defined.

(** X5: The sensor test fails on a wait that timed out, on its first
    assertion: the reading is never looked for. *)
Theorem sensor_test_fails_on_timeout
        {tables : UnicodeTables} (w : World) (fuel : nat) (buffer : pystr) :
  run_reader w fuel (re_literal (py "Données capteur:")) 30
  = Some (Returned AtDeadline buffer) ->
  exists m,
    test_community_sensor_reading w fuel = Some m
    /\ outcome_of m = Raise (AssertionError (py "Données capteur:"))
    /\ List.length (executed m) = 1%nat.
Proof.
  intros Hrun.
  pose proof (fun nonempty => @timed_out_buffer_lacks_literal tables w _ _ fuel buffer nonempty Hrun)
    as Hlack.
  specialize (Hlack eq_refl).
  exists (sensor_reading_checks buffer).
  unfold test_community_sensor_reading.
  rewrite (@run_test_method_returned tables w fuel _ _ sensor_reading_checks _ _ Hrun).
  unfold sensor_reading_checks. run_assertions. rewrite Hlack.
  repeat split.
Qed.

Lemma sensor_test_fails_on_timeout_witness :
  exists m,
    test_community_sensor_reading (tables := ascii_tables)
      (scripted [utf8 "T=23.5°C, H=45.0%"]) 40 = Some m
    /\ outcome_of m = Raise (AssertionError (py "Données capteur:"))
    /\ List.length (executed m) = 1%nat.
Proof.
  apply (@sensor_test_fails_on_timeout ascii_tables
           (scripted [utf8 "T=23.5°C, H=45.0%"]) 40%nat (py "T=23.5°C, H=45.0%")).
  vm_compute. reflexivity.
Defined.

(** X6: The sensor test waits for the label of the reading only.  When the
    wait returns at the label and the reading itself is not in the buffer
    yet, the test passes without a range check, whatever the reading that
    follows is. *)
Theorem sensor_test_skips_late_reading
        {tables : UnicodeTables} (w : World) (fuel : nat) (buffer : pystr) :
  run_reader w fuel (re_literal (py "Données capteur:")) 30
  = Some (Returned AtMatch buffer) ->
  re_search sensor_pattern buffer = None ->
  exists m,
    test_community_sensor_reading w fuel = Some m
    /\ outcome_of m = Ok tt.
Proof.
  intros Hrun Hnone.
  exists (sensor_reading_checks buffer).
  unfold test_community_sensor_reading.
  rewrite (@run_test_method_returned tables w fuel _ _ sensor_reading_checks _ _ Hrun).
  split; [ reflexivity | ].
  apply sensor_reading_outcome; [ | exact Hnone ].
  exact (matched_buffer_holds_literal _ _ _ _ Hrun).
Qed.

(** The label in one read, a temperature of 150 degrees in the next. *)
Lemma sensor_test_skips_late_reading_witness :
  exists m,
    test_community_sensor_reading (tables := ascii_tables)
      (scripted [utf8 "I (731) sensor: Données capteur:"; utf8 " T=150.0°C, H=45.0%"]) 40
    = Some m
    /\ outcome_of m = Ok tt.
Proof.
  apply (@sensor_test_skips_late_reading ascii_tables
           (scripted [utf8 "I (731) sensor: Données capteur:"; utf8 " T=150.0°C, H=45.0%"])
           40%nat (py "I (731) sensor: Données capteur:")).
  - vm_compute. reflexivity.
  - vm_compute. reflexivity.
Defined.

(** X7: The crypto test fails on every log that names the hardware security
    module or the TRNG, whatever stands around the name. *)
Theorem crypto_test_rejects_any_mention (boot_log : pystr) :
  contains (py "Hardware Security Module") boot_log = true
  \/ contains (py "TRNG") boot_log = true ->
  exists member, outcome_of (crypto_basic_checks boot_log) = Raise (AssertionError member).
Proof.
  unfold crypto_basic_checks. unfold_assertions.
  split_on_contains boot_log; intros [H|H]; try discriminate;
    cbn [negb fst snd app andb orb]; eexists; reflexivity.
Qed.

Lemma crypto_test_rejects_any_mention_witness :
  exists member,
    outcome_of (crypto_basic_checks (py "Initialisation crypto de base Community
Version éducative - Crypto software seulement
Crypto de base initialisé
SecureIoT-VIF Community Edition: pas de TRNG"))
    = Raise (AssertionError member).
Proof.
  apply crypto_test_rejects_any_mention. right. vm_compute. reflexivity.
Defined.

(** X8: The integrity test waits for a literal that is only the beginning of
    the message it asserts.  Whenever the wait returns a buffer without the
    whole message (it timed out, or it found the beginning before the rest
    was read), the test fails on its first assertion. *)
Theorem integrity_test_needs_whole_message
        {tables : UnicodeTables} (w : World) (fuel : nat)
        (path : exit_path) (buffer : pystr) :
  run_reader w fuel (re_literal (py "Vérification d'intégrité")) 90
  = Some (Returned path buffer) ->
  (path = AtDeadline \/ contains (py "Vérification d'intégrité basique") buffer = false) ->
  exists m,
    test_community_integrity_basic w fuel = Some m
    /\ outcome_of m = Raise (AssertionError (py "Vérification d'intégrité basique")).
Proof.
  intros Hrun Hwhy.
  assert (Hlack : contains (py "Vérification d'intégrité basique") buffer = false).
  { destruct Hwhy as [-> | H]; [ | exact H ].
    apply (@contains_absent (py "Vérification d'intégrité")); [ vm_compute; reflexivity | ].
    apply (fun nonempty =>
             @timed_out_buffer_lacks_literal tables w _ _ fuel buffer nonempty Hrun).
    reflexivity. }
  exists (integrity_basic_checks buffer).
  unfold test_community_integrity_basic.
  rewrite (@run_test_method_returned tables w fuel _ _ integrity_basic_checks _ _ Hrun).
  unfold integrity_basic_checks. run_assertions. rewrite Hlack.
  split; reflexivity.
Qed.

(** The message arrives in two reads, cut after the literal that the test
    waits for: the wait returns at the first read and the test fails. *)
Lemma integrity_test_needs_whole_message_witness :
  exists m,
    test_community_integrity_basic (tables := ascii_tables)
      (scripted [utf8 "I (900) integrity: Vérification d'intégrité"; utf8 " basique OK"]) 100
    = Some m
    /\ outcome_of m = Raise (AssertionError (py "Vérification d'intégrité basique")).
Proof.
  apply (@integrity_test_needs_whole_message ascii_tables
           (scripted [utf8 "I (900) integrity: Vérification d'intégrité"; utf8 " basique OK"])
           100%nat AtMatch (py "I (900) integrity: Vérification d'intégrité")).
  - vm_compute. reflexivity.
  - right. vm_compute. reflexivity.
Defined.

(** X9: The integrity test passes exactly on the logs that hold the basic
    verification message, name neither real time nor attestation, and, if
    they mention sampling, also mention the chunks. *)
Theorem integrity_checks_verdict (integrity_log : pystr) :
  outcome_of (integrity_basic_checks integrity_log) = Ok tt
  <-> (contains (py "Vérification d'intégrité basique") integrity_log = true
       /\ contains (py "temps réel") integrity_log = false
       /\ contains (py "attestation") integrity_log = false
       /\ (contains (py "Échantillonnage") integrity_log = true ->
           contains (py "chunks sur") integrity_log = true)).
Proof.
  unfold integrity_basic_checks. unfold_assertions.
  split_on_contains integrity_log; cbn [negb fst snd app andb orb]; split;
    try discriminate; try reflexivity; try (intros (? & ? & ? & ?); discriminate);
    try (intros _; repeat split; (reflexivity || discriminate));
    try (intros (_ & _ & _ & H); specialize (H eq_refl); discriminate).
Qed.

(** X10: The anomaly test can fail only on a log that reports a detected
    anomaly and names ML or adaptation; its assertions on "seuils fixes"
    and on "Anomalie détectée" stand under a test of the same condition
    and never fail. *)
Theorem anomaly_checks_verdict (log_buffer : pystr) :
  outcome_of (anomaly_detection_checks log_buffer) = Ok tt
  <-> (contains (py "Anomalie détectée") log_buffer = false
       \/ (contains (py "ML") log_buffer = false
           /\ contains (py "adaptatif") log_buffer = false)).
Proof.
  unfold anomaly_detection_checks. unfold_assertions.
  split_on_contains log_buffer; cbn [negb fst snd app andb orb]; split;
    try discriminate; try reflexivity; try tauto;
    intros [H | [H1 H2]]; discriminate.
Qed.

Lemma anomaly_checks_verdict_witness :
  outcome_of (anomaly_detection_checks
                (py "W (4512) anomaly: Anomalie détectée (seuils fixes): T=85.2°C")) = Ok tt.
Proof.
  apply anomaly_checks_verdict. right. split; vm_compute; reflexivity.
Defined.

Lemma integrity_checks_verdict_witness :
  outcome_of (integrity_basic_checks
                (py "I (900) integrity: Vérification d'intégrité basique
I (910) integrity: Échantillonnage: 12 chunks sur 48")) = Ok tt.
Proof.
  apply integrity_checks_verdict.
  repeat split; try (vm_compute; reflexivity).
Defined.

(** ** A port that stays silent *)

Lemma accumulated_silent {tables : UnicodeTables} (w : World) (k : nat) :
  (forall i, (i < k)%nat -> waiting w i = []) -> accumulated w k = [].
Proof.
  induction k as [|k IH]; intros Hsilent; [ reflexivity | ].
  cbn [accumulated]. rewrite IH by (intros i Hi; apply Hsilent; lia).
  unfold decoded. rewrite (Hsilent k) by lia. reflexivity.
Qed.

Lemma silent_reader
      {tables : UnicodeTables} (w : World) (pattern : regex) (timeout : Q) (n : nat) :
  (timeout <= clock w (S n) - clock w 0)%Q ->
  (forall i, (i <= n)%nat -> waiting w i = []) ->
  forall fuel, (n < fuel)%nat ->
    run_reader w fuel pattern timeout = Some (Returned AtDeadline []).
Proof.
  intros Hdead Hsilent fuel Hfuel.
  destruct (@reader_finishes tables w pattern timeout n Hdead) as (k & c & Hk & Hfin & Hrun).
  rewrite (Hrun fuel Hfuel). f_equal.
  destruct Hfin as [k _ _ _ | k _ _ _ Hfound].
  - rewrite accumulated_silent; [ reflexivity | ]. intros i Hi. apply Hsilent. lia.
  - unfold found_at, in_waiting in Hfound. rewrite (Hsilent k Hk) in Hfound. discriminate.
Qed.

(** X1: The pattern is searched only after bytes were read: on a port that
    delivers nothing until the deadline, the call returns the empty text by
    the deadline path for every pattern, also for one that matches the
    empty text. *)
Theorem reader_needs_bytes_to_search
        {tables : UnicodeTables} (w : World) (pattern : regex) (timeout : Q) (n : nat) :
  (timeout <= clock w (S n) - clock w 0)%Q ->
  (forall i, (i <= n)%nat -> waiting w i = []) ->
  forall fuel, (n < fuel)%nat ->
    run_reader w fuel pattern timeout = Some (Returned AtDeadline [])
    /\ read_serial_until_pattern w fuel pattern timeout = Some (Ok []).
Proof.
  intros Hdead Hsilent fuel Hfuel.
  pose proof (silent_reader w pattern Hdead Hsilent Hfuel) as Hrun.
  split; [ exact Hrun | ].
  unfold read_serial_until_pattern. rewrite Hrun. reflexivity.
Qed.

(** The empty pattern on a silent port, with a deadline of two seconds. *)
Lemma reader_needs_bytes_to_search_witness :
  run_reader (tables := ascii_tables) (scripted []) 5 REmpty 2
  = Some (Returned AtDeadline [])
  /\ read_serial_until_pattern (tables := ascii_tables) (scripted []) 5 REmpty 2
     = Some (Ok [])
  /\ exists m, re_search (tables := ascii_tables) REmpty [] = Some m.
Proof.
  destruct (@reader_needs_bytes_to_search ascii_tables (scripted []) REmpty 2 1%nat)
    with (fuel := 5%nat) as [Hrun Hread].
  - vm_compute. discriminate.
  - intros i _. destruct i as [|[|i]]; reflexivity.
  - lia.
  - split; [ exact Hrun | ]. split; [ exact Hread | ].
    eexists. vm_compute. reflexivity.
Defined.

(** X11: On a port that stays silent for its sixty seconds the anomaly test
    passes: it asserts nothing on a log without a detected anomaly. *)
Theorem anomaly_test_passes_on_silence
        {tables : UnicodeTables} (w : World) (n : nat) :
  (60 <= clock w (S n) - clock w 0)%Q ->
  (forall i, (i <= n)%nat -> waiting w i = []) ->
  forall fuel, (n < fuel)%nat ->
    exists m,
      test_community_anomaly_detection_basic w fuel = Some m
      /\ outcome_of m = Ok tt
      /\ executed m = [].
Proof.
  intros Hdead Hsilent fuel Hfuel.
  pose proof (silent_reader w anomaly_pattern Hdead Hsilent Hfuel) as Hrun.
  exists (anomaly_detection_checks []).
  unfold test_community_anomaly_detection_basic.
  rewrite (@run_test_method_returned tables w fuel _ _ anomaly_detection_checks _ _ Hrun).
  split; [ reflexivity | ]. split; vm_compute; reflexivity.
Qed.

Lemma anomaly_test_passes_on_silence_witness :
  exists m,
    test_community_anomaly_detection_basic (tables := ascii_tables) (scripted []) 70 = Some m
    /\ outcome_of m = Ok tt
    /\ executed m = [].
Proof.
  apply (@anomaly_test_passes_on_silence ascii_tables (scripted []) 59%nat).
  - vm_compute. discriminate.
  - intros i _. destruct i as [|[|i]]; reflexivity.
  - lia.
Defined.

(** ** The educational messages *)

(** X12: Two of the six messages overlap: a log with "Version éducative" also
    has "éducative".  So a log that has "Version éducative" and any one of
    the other four messages passes the test, with three messages counted. *)
Theorem educational_test_counts_overlap (boot_log : pystr) :
  contains (py "Version éducative") boot_log = true ->
  (contains (py "Community Edition") boot_log = true
   \/ contains (py "apprentissage") boot_log = true
   \/ contains (py "Idéal pour") boot_log = true
   \/ contains (py "🎓") boot_log = true) ->
  outcome_of (educational_messages_checks boot_log) = Ok tt
  /\ 3 <= count_found educational_messages boot_log.
Proof.
  intros Hversion Hother.
  assert (Hword : contains (py "éducative") boot_log = true).
  { apply (@contains_trans (py "éducative") (py "Version éducative"));
      [ vm_compute; reflexivity | exact Hversion ]. }
  unfold educational_messages_checks, count_found, educational_messages.
  cbn [fold_left]. rewrite Hversion, Hword. revert Hother. unfold_assertions.
  split_on_contains boot_log; intros Hother; cbn [negb fst snd app andb orb];
    try (split; [ reflexivity | cbn; lia ]);
    exfalso; destruct Hother as [H | [H | [H | H]]]; discriminate.
Qed.

Lemma educational_test_counts_overlap_witness :
  outcome_of (educational_messages_checks
                (py "SecureIoT-VIF Community Edition
Version éducative - Crypto software seulement")) = Ok tt
  /\ 3 <= count_found educational_messages
            (py "SecureIoT-VIF Community Edition
Version éducative - Crypto software seulement").
Proof.
  apply educational_test_counts_overlap.
  - vm_compute. reflexivity.
  - left. vm_compute. reflexivity.
Defined.

(** ** Reads and character boundaries *)

(** X2: When a read ends on a character boundary, it and the next read give
    the buffer that one read of all the bytes would give. *)
Theorem reads_compose_on_boundaries (buffer : pystr) (first second : pybytes) (text : pystr) :
  utf8_decode Strict first = Some text ->
  decode_append_twice buffer first second = decode_append buffer (first ++ second).
Proof.
  intros Hfirst. unfold decode_append_twice, decode_append.
  rewrite (utf8_decode_strict_ignore first Hfirst).
  rewrite (utf8_decode_strict_app Ignore first second Hfirst).
  cbn [option_map].
  destruct (utf8_decode Ignore second) as [rest|]; cbn [option_map]; [ | reflexivity ].
  rewrite app_assoc. reflexivity.
Qed.

Lemma reads_compose_on_boundaries_witness :
  decode_append_twice (py "log: ") (utf8 "Donn") (utf8 "ées")
  = decode_append (py "log: ") (utf8 "Donn" ++ utf8 "ées").
Proof.
  apply (@reads_compose_on_boundaries (py "log: ") (utf8 "Donn") (utf8 "ées") (py "Donn")).
  vm_compute. reflexivity.
Defined.

Lemma two_byte_character (b0 b1 : byte) (ch : Z) :
  utf8_decode Strict [b0; b1] = Some [ch] ->
  utf8_decode Ignore [b0] = Some [] /\ invalid_start b1 = true.
Proof.
  unfold invalid_start. cbn [utf8_decode]. cbv zeta.
  unfold is_continuation.
  decode_cases; unfold on_error, emit; cbn [option_map];
    try discriminate; intros H; split; try reflexivity;
    try (bools_to_props; lia).
Qed.

(** X3: A two-byte character (an accented letter, the degree sign) whose bytes
    arrive in two different reads is dropped, where one read of the same
    bytes keeps it. *)
Theorem split_character_is_lost
        (buffer : pystr) (s1 s2 : pybytes) (t1 t2 : pystr) (b0 b1 : byte) (ch : Z) :
  utf8_decode Strict s1 = Some t1 ->
  utf8_decode Strict [b0; b1] = Some [ch] ->
  utf8_decode Strict s2 = Some t2 ->
  decode_append buffer (s1 ++ [b0; b1] ++ s2) = Some (buffer ++ t1 ++ ch :: t2)
  /\ decode_append_twice buffer (s1 ++ [b0]) (b1 :: s2) = Some (buffer ++ t1 ++ t2).
Proof.
  intros H1 Hch H2.
  destruct (two_byte_character b0 b1 Hch) as [Hlead Hcont].
  unfold decode_append_twice, decode_append. split.
  - rewrite (utf8_decode_strict_app Ignore s1 _ H1).
    rewrite (utf8_decode_strict_app Ignore [b0; b1] s2 Hch).
    rewrite (utf8_decode_strict_ignore s2 H2). reflexivity.
  - rewrite (utf8_decode_strict_app Ignore s1 [b0] H1), Hlead. cbn [option_map].
    rewrite (utf8_decode_ignore_invalid_start b1 s2 Hcont).
    rewrite (utf8_decode_strict_ignore s2 H2). cbn [option_map].
    rewrite app_nil_r, app_assoc. reflexivity.
Qed.

Lemma split_character_is_lost_witness :
  decode_append [] (utf8 "Op" ++ [xc3; xa9] ++ utf8 "rationnel") = Some (py "Opérationnel")
  /\ decode_append_twice [] (utf8 "Op" ++ [xc3]) (xa9 :: utf8 "rationnel")
     = Some (py "Oprationnel").
Proof.
  apply (@split_character_is_lost [] (utf8 "Op") (utf8 "rationnel")
           (py "Op") (py "rationnel") xc3 xa9 233); vm_compute; reflexivity.
Defined.

(** * The flash tool *)

Lemma str_eqb_eq (a b : pystr) : str_eqb a b = true <-> a = b.
Proof.
  revert b. induction a as [|x a IH]; intros [|y b]; cbn [str_eqb];
    try (split; (reflexivity || discriminate)).
  rewrite andb_true_iff, Z.eqb_eq, IH. split.
  - intros [-> ->]. reflexivity.
  - intros [= -> ->]. split; reflexivity.
Qed.

Lemma str_eqb_refl (a : pystr) : str_eqb a a = true.
Proof. apply str_eqb_eq. reflexivity. Qed.

(** ** The port *)

Lemma first_kept_device {tables : UnicodeTables} (ports : list port_info) :
  hd_error (map device (filter is_esp32 ports)) = option_map device (find is_esp32 ports).
Proof.
  induction ports as [|p ports IH]; [ reflexivity | ].
  cbn [filter find]. destruct (is_esp32 p); [ reflexivity | exact IH ].
Qed.

(** X14: [detect_port] returns the device of the first listed port whose
    description, in lower case, holds one of the five keywords, wherever
    that port stands in the list; with no such port it returns the first
    port listed, and with no port at all the default. *)
Theorem detect_port_prefers_esp32
        {tables : UnicodeTables} (host : Host) (ports : list port_info) :
  comports host = Some ports ->
  detect_port host
  = match find is_esp32 ports with
    | Some p => device p
    | None =>
      match ports with
      | first :: _ => device first
      | [] => default_port
      end
    end.
Proof.
  intros Hports. unfold detect_port. rewrite Hports. cbv zeta.
  pose proof (first_kept_device ports) as H.
  destruct (map device (filter is_esp32 ports)) as [|selected rest];
    destruct (find is_esp32 ports) as [p|]; cbn in H; congruence.
Qed.

(** A Bluetooth port listed before a CP210x bridge: the bridge is taken. *)
Lemma detect_port_prefers_esp32_witness :
  detect_port (tables := ascii_tables)
    {| shell := fun _ _ fs => ({| returncode := 0; stdout := []; stderr := [] |}, fs);
       comports := Some [ {| device := py "/dev/ttyS0"; description := py "Bluetooth" |};
                          {| device := py "/dev/ttyUSB1";
                             description := py "CP2102 USB to UART Bridge" |} ] |}
  = py "/dev/ttyUSB1".
Proof.
  rewrite (@detect_port_prefers_esp32 ascii_tables
             {| shell := fun _ _ fs => ({| returncode := 0; stdout := []; stderr := [] |}, fs);
                comports := Some [ {| device := py "/dev/ttyS0";
                                      description := py "Bluetooth" |};
                                   {| device := py "/dev/ttyUSB1";
                                      description := py "CP2102 USB to UART Bridge" |} ] |}
             [ {| device := py "/dev/ttyS0"; description := py "Bluetooth" |};
               {| device := py "/dev/ttyUSB1";
                  description := py "CP2102 USB to UART Bridge" |} ] eq_refl).
  vm_compute. reflexivity.
Defined.

(** ** The configuration file *)

(** Every entry of a configuration stands in the text written for it, as
    key=value. *)
Lemma render_config_holds_entries (config : list (pystr * pystr)) (key value : pystr) :
  In (key, value) config ->
  contains (key ++ py "=" ++ value) (render_config config) = true.
Proof.
  induction config as [|[k v] rest IH]; intros Hin; [ destruct Hin | ].
  cbn [render_config]. destruct Hin as [[= -> ->] | Hin].
  - replace (key ++ py "=" ++ value ++ [newline] ++ render_config rest)
      with ([] ++ (key ++ py "=" ++ value) ++ ([newline] ++ render_config rest))
      by (cbn [app]; rewrite <- !app_assoc; reflexivity).
    apply contains_infix.
  - destruct (contains_split _ _ (IH Hin)) as (pre & post & ->).
    replace (k ++ py "=" ++ v ++ [newline] ++ pre ++ (key ++ py "=" ++ value) ++ post)
      with ((k ++ py "=" ++ v ++ [newline] ++ pre) ++ (key ++ py "=" ++ value) ++ post)
      by (rewrite <- !app_assoc; reflexivity).
    apply contains_infix.
Qed.

Lemma written_configuration_is_complete :
  find_missing_configs (render_config community_config) = [].
Proof.
  assert (H : forall key value,
             In (key, value) community_config ->
             negb (contains (key ++ py "=" ++ value) (render_config community_config)) = false).
  { intros key value Hin. rewrite (render_config_holds_entries _ _ _ Hin). reflexivity. }
  unfold find_missing_configs, community_configs. cbn [filter].
  change (py "CONFIG_SECURE_IOT_COMMUNITY_EDITION=y")
    with (py "CONFIG_SECURE_IOT_COMMUNITY_EDITION" ++ py "=" ++ py "y").
  change (py "CONFIG_SECURE_IOT_BASIC_CRYPTO_ONLY=y")
    with (py "CONFIG_SECURE_IOT_BASIC_CRYPTO_ONLY" ++ py "=" ++ py "y").
  change (py "CONFIG_SECURE_BOOT=n") with (py "CONFIG_SECURE_BOOT" ++ py "=" ++ py "n").
  change (py "CONFIG_SECURE_FLASH_ENC_ENABLED=n")
    with (py "CONFIG_SECURE_FLASH_ENC_ENABLED" ++ py "=" ++ py "n").
  rewrite !H; [ reflexivity | .. ]; unfold community_config; cbn [In]; tauto.
Qed.

(** X15: The configuration that [configure_project] writes passes the
    configuration test of [run_tests]: when the build succeeds and leaves
    sdkconfig as it was written, no key configuration is reported
    missing. *)
Theorem configuration_passes_its_test (host : Host) (st : tool_state) :
  let st1 := fst (configure_project host true st) in
  let build := shell host (List.length (history st1)) (py "idf.py build") (files st1) in
  returncode (fst build) = 0 ->
  snd build (py "sdkconfig") = files st1 (py "sdkconfig") ->
  files st1 (py "sdkconfig") = Some (render_config community_config)
  /\ exists st2 report,
       run_tests host st1 = (st2, Done report)
       /\ missing_configs report = Some [].
Proof.
  cbv zeta. unfold configure_project. cbn [fst files history].
  intros Hbuild Hkept.
  assert (Hwritten : write_file (files st) (py "sdkconfig") (render_config community_config)
                                (py "sdkconfig")
                     = Some (render_config community_config)).
  { unfold write_file. rewrite str_eqb_refl. reflexivity. }
  split; [ exact Hwritten | ].
  unfold run_tests, and_then, run_command. cbn [files history].
  destruct (shell host (List.length (history st)) (py "idf.py build")
                  (write_file (files st) (py "sdkconfig") (render_config community_config)))
    as [result files'] eqn:Hshell.
  cbn [fst snd] in Hbuild, Hkept. rewrite Hbuild. cbn [Z.eqb negb andb files].
  eexists. eexists. split; [ reflexivity | ].
  cbn [missing_configs]. rewrite Hkept, Hwritten. cbn [option_map].
  rewrite written_configuration_is_complete. reflexivity.
Qed.

Lemma configuration_passes_its_test_witness :
  exists st2 report,
    run_tests
      {| shell := fun _ _ fs => ({| returncode := 0; stdout := []; stderr := [] |}, fs);
         comports := None |}
      (fst (configure_project
              {| shell := fun _ _ fs => ({| returncode := 0; stdout := []; stderr := [] |}, fs);
                 comports := None |}
              true {| files := fun _ => None; history := [] |}))
    = (st2, Done report)
    /\ missing_configs report = Some [].
Proof.
  destruct (@configuration_passes_its_test
              {| shell := fun _ _ fs => ({| returncode := 0; stdout := []; stderr := [] |}, fs);
                 comports := None |}
              {| files := fun _ => None; history := [] |}) as [_ Hreport];
    [ reflexivity | reflexivity | exact Hreport ].
Defined.

(** ** Cleaning *)



(** ** The edition *)

Lemma shows_features_iff_marker (fs : filesystem) :
  shows_features fs = true
  <-> exists content,
      fs (py "main/app_config.h") = Some content
      /\ contains (py "1.0.0-COMMUNITY") content = true.
Proof.
  unfold shows_features, version_info.
  destruct (fs (py "main/app_config.h")) as [content|].
  - destruct (contains (py "1.0.0-COMMUNITY") content) eqn:Hc.
    + split; intros _; [ exists content; split; [ reflexivity | exact Hc ] | reflexivity ].
    + destruct (contains (py "2.0.0-ESP32-CRYPTO") content); split; intros H;
        try (vm_compute in H; discriminate);
        destruct H as (c & [= <-] & H); congruence.
  - split; intros H; [ vm_compute in H; discriminate | ].
    destruct H as (c & H & _). discriminate.
Qed.

Lemma community_notice_iff_features (fs : filesystem) :
  environment_notice fs = Some (py "✅ SecureIoT-VIF Community Edition détectée")
  <-> shows_features fs = true.
Proof.
  unfold shows_features, version_info, environment_notice.
  destruct (fs (py "main/app_config.h")) as [content|].
  - destruct (contains (py "1.0.0-COMMUNITY") content).
    + split; reflexivity.
    + destruct (contains (py "2.0.0-ESP32-CRYPTO") content); split; intros H;
        vm_compute in H; discriminate.
  - split; intros H; vm_compute in H; discriminate.
Qed.

(** X17: [show_version_info] prints the Community features exactly when the
    header exists and holds the Community marker, also when it holds the
    Enterprise marker as well.  [check_environment] runs idf.py --version
    first, whatever the files are: when the command returns a non-zero code
    it exits with status 1 and says nothing about the edition; when the
    command returns 0 it goes on to the notice, read from the files as the
    command left them.  So it reports the Community edition exactly when
    the command returned 0 and [show_version_info], on those files, prints
    the features. *)
Theorem community_features_shown_iff (host : Host) (st : tool_state) :
  let probe := shell host (List.length (history st)) (py "idf.py --version") (files st) in
  (forall fs,
      shows_features fs = true
      <-> exists content,
          fs (py "main/app_config.h") = Some content
          /\ contains (py "1.0.0-COMMUNITY") content = true)
  /\ history (fst (check_environment host st))
     = history st ++ [(py "idf.py --version", returncode (fst probe))]
  /\ files (fst (check_environment host st)) = snd probe
  /\ (returncode (fst probe) <> 0 ->
      snd (check_environment host st) = SystemExit 1)
  /\ (returncode (fst probe) = 0 ->
      snd (check_environment host st) = Done (environment_notice (snd probe)))
  /\ (snd (check_environment host st)
      = Done (Some (py "✅ SecureIoT-VIF Community Edition détectée"))
      <-> returncode (fst probe) = 0 /\ shows_features (snd probe) = true).
Proof.
  cbv zeta. split; [ exact shows_features_iff_marker | ].
  unfold check_environment, and_then, run_command, sys_exit.
  destruct (shell host (List.length (history st)) (py "idf.py --version") (files st))
    as [result files'].
  cbn [fst snd andb]. destruct (returncode result =? 0) eqn:Hcode;
    cbn [negb fst snd files history]; bools_to_props.
  - split; [ reflexivity | ]. split; [ reflexivity | ].
    split; [ intros Hne; contradiction | ]. split; [ reflexivity | ]. split.
    + intros [= Hnotice]. split; [ assumption | ].
      apply community_notice_iff_features. exact Hnotice.
    + intros [_ Hshown]. apply community_notice_iff_features in Hshown.
      rewrite Hshown. reflexivity.
  - split; [ reflexivity | ]. split; [ reflexivity | ].
    split; [ reflexivity | ]. split; [ intros Hzero; contradiction | ]. split.
    + discriminate.
    + intros [Hzero _]. contradiction.
Qed.

(** A header that holds both markers, and an ESP-IDF that answers: the
    Community edition is reported. *)
Lemma community_features_shown_iff_witness :
  snd (check_environment
         {| shell := fun _ _ fs => ({| returncode := 0; stdout := []; stderr := [] |}, fs);
            comports := None |}
         {| files := fun path =>
                       if str_eqb path (py "main/app_config.h")
                       then Some (py "#define FW_VERSION 2.0.0-ESP32-CRYPTO // ex 1.0.0-COMMUNITY")
                       else None;
            history := [] |})
  = Done (Some (py "✅ SecureIoT-VIF Community Edition détectée")).
Proof.
  apply (community_features_shown_iff
           {| shell := fun _ _ fs => ({| returncode := 0; stdout := []; stderr := [] |}, fs);
              comports := None |}
           {| files := fun path =>
                         if str_eqb path (py "main/app_config.h")
                         then Some (py "#define FW_VERSION 2.0.0-ESP32-CRYPTO // ex 1.0.0-COMMUNITY")
                         else None;
              history := [] |}).
  split; vm_compute; reflexivity.
Defined.

(** Without ESP-IDF the same header is not looked at: the tool exits. *)
Example no_notice_without_esp_idf :
  check_environment
    {| shell := fun _ _ fs => ({| returncode := 127; stdout := []; stderr := [] |}, fs);
       comports := None |}
    {| files := fun path =>
                  if str_eqb path (py "main/app_config.h")
                  then Some (py "#define FW_VERSION 1.0.0-COMMUNITY")
                  else None;
       history := [] |}
  = ({| files := fun path =>
                   if str_eqb path (py "main/app_config.h")
                   then Some (py "#define FW_VERSION 1.0.0-COMMUNITY")
                   else None;
        history := [(py "idf.py --version", 127)] |},
     SystemExit 1).
Proof. reflexivity. Qed.

(** ** A run without a device *)

Lemma run_from_all_skipped (suite : list scenario) :
  (forall s, In s suite -> port_opened s = false) ->
  count_outcomes is_skipped suite = List.length suite
  /\ count_outcomes is_failure suite = 0%nat
  /\ count_outcomes is_error suite = 0%nat.
Proof.
  unfold count_outcomes, run_scenario.
  induction suite as [|s rest IH]; intros Hall; [ repeat split | ].
  cbn [filter List.length]. rewrite (Hall s (or_introl eq_refl)). cbn [is_skipped is_failure is_error].
  destruct IH as (Hs & Hf & He); [ intros s' Hin; apply Hall; right; exact Hin | ].
  cbn [List.length]. rewrite Hs, Hf, He. repeat split.
Qed.

(** X13: When the serial port cannot be opened, [setUp] skips every test, and
    the run counts as a success: the exit status is 0, with every test
    listed as skipped and none run against a device. *)
Theorem no_port_means_success (suite : list scenario) :
  (forall s, In s suite -> port_opened s = false) ->
  exit_status suite = 0
  /\ run_community_tests suite = true
  /\ listed_skipped (runner_summary (runner_run suite)) = List.length suite.
Proof.
  intros Hall.
  destruct (run_from_all_skipped suite Hall) as (Hs & Hf & He).
  destruct (run_from_counts suite 0 empty_result) as (Hfl & Hel & Hsl & _).
  assert (Hok : run_community_tests suite = true).
  { unfold run_community_tests, wasSuccessful, runner_run. cbv zeta.
    rewrite Hfl, Hel, Hf, He. reflexivity. }
  unfold exit_status. cbv zeta. rewrite Hok. repeat split.
  unfold runner_summary, runner_run. cbn [listed_skipped]. rewrite Hsl, Hs. reflexivity.
Qed.

Lemma no_port_means_success_witness :
  exit_status [ {| port_opened := false; method_result := Ok tt |};
                {| port_opened := false; method_result := Ok tt |} ] = 0
  /\ run_community_tests [ {| port_opened := false; method_result := Ok tt |};
                           {| port_opened := false; method_result := Ok tt |} ] = true
  /\ listed_skipped
       (runner_summary
          (runner_run [ {| port_opened := false; method_result := Ok tt |};
                        {| port_opened := false; method_result := Ok tt |} ]))
     = 2%nat.
Proof.
  apply (@no_port_means_success
           [ {| port_opened := false; method_result := Ok tt |};
             {| port_opened := false; method_result := Ok tt |} ]).
  intros s [<- | [<- | []]]; reflexivity.
Defined.
